(** * signalk-noaa-observations: a shallow embedding of [index.js]

    The plugin polls api.weather.gov for the stations around the vessel,
    fetches the latest observation of every station in range and republishes
    it on the Signal K bus.  This file embeds the plugin's functions and
    proves the properties its specification states.

    Modelling choices.
    - A JavaScript value is a [JsVal]: [undefined], or a JSON document as
      [request] delivers it with [json: true].  A JavaScript number is an IEEE
      754 binary64, which is exactly Rocq's primitive [float].
    - A JavaScript string is a Rocq [string]; case mapping is modelled on the
      ASCII letters (station identifiers are ICAO codes).
    - Reading a property of [undefined] or [null] throws [TypeError]; code
      that can throw lives in the [Completion] type, code that also logs,
      publishes or issues requests in the monad [M].
    - [request.get] is asynchronous: issuing a request is an effect that
      carries its callback, and a callback is run later, as a task of its
      own, on the reply.
    - The built-ins whose value the language leaves to the host (the [Math]
      functions, the parsing and printing of numbers, [JSON.stringify]) are
      the fields of the class [Runtime]. *)

From Stdlib Require Import Floats Uint63 ZArith String Ascii List Bool Arith Lia DecimalString.
From Stdlib Require DecimalNat DecimalFacts Finite.
Import ListNotations.

Set Warnings "-inexact-float,-register-all".

Local Open Scope list_scope.
Local Open Scope string_scope.

(** ** JavaScript values *)

Inductive JsVal : Type :=
| JUndefined
| JNull
| JBool (b : bool)
| JNum (x : float)
| JStr (s : string)
| JArr (items : list JsVal)
| JObj (fields : list (string * JsVal)).

Inductive JsError : Type :=
| TypeError.

Inductive Completion (A : Type) : Type :=
| Normal (a : A)
| Throw (e : JsError).

Arguments Normal {A} a.
Arguments Throw {A} e.

Definition cbind {A B : Type} (c : Completion A) (k : A -> Completion B) : Completion B :=
  match c with
  | Normal a => k a
  | Throw e => Throw e
  end.

(** The built-ins the host provides. *)
Class Runtime : Type := {
  Math_sin : float -> float;
  Math_cos : float -> float;
  Math_acos : float -> float;
  (** the abstract operation StringToNumber of ECMAScript *)
  StringToNumber : string -> float;
  (** Number::toString *)
  NumberToString : float -> string;
  (** [JSON.stringify], which yields a string or [undefined] *)
  JSON_stringify : JsVal -> JsVal
}.

Definition Math_PI : float := 3.141592653589793%float.

(** [v === null] *)
Definition isNull (v : JsVal) : bool :=
  match v with
  | JNull => true
  | _ => false
  end.

Definition isNullish (v : JsVal) : bool :=
  match v with
  | JUndefined | JNull => true
  | _ => false
  end.

Definition isUndefined (v : JsVal) : bool :=
  match v with
  | JUndefined => true
  | _ => false
  end.

Definition isObject (v : JsVal) : bool :=
  match v with
  | JArr _ | JObj _ => true
  | _ => false
  end.

(** ToBoolean: what [!v] negates. *)
Definition truthy (v : JsVal) : bool :=
  match v with
  | JUndefined | JNull => false
  | JBool b => b
  | JNum x => negb ((x =? 0)%float || is_nan x)
  | JStr s => negb (String.eqb s "")
  | JArr _ | JObj _ => true
  end.

(** The value of key [k] in a parsed object ([undefined] when it is missing).
    A parsed object holds every key once. *)
Fixpoint lookup (k : string) (fields : list (string * JsVal)) : JsVal :=
  match fields with
  | [] => JUndefined
  | (k', v) :: rest => if String.eqb k k' then v else lookup k rest
  end.

(** [v.name], for the property names the plugin reads; none of them is a
    built-in property of an array, a string, a number or a boolean. *)
Definition getProp (v : JsVal) (name : string) : Completion JsVal :=
  match v with
  | JUndefined | JNull => Throw TypeError
  | JObj fields => Normal (lookup name fields)
  | _ => Normal JUndefined
  end.

(** [v.n1.n2. ... ] read from left to right. *)
Fixpoint getPath (v : JsVal) (names : list string) : Completion JsVal :=
  match names with
  | [] => Normal v
  | name :: rest => cbind (getProp v name) (fun w => getPath w rest)
  end.

Definition indexKey (i : nat) : string := NilZero.string_of_uint (Nat.to_uint i).

(** [v[i]] *)
Definition getIndex (v : JsVal) (i : nat) : Completion JsVal :=
  match v with
  | JUndefined | JNull => Throw TypeError
  | JArr items => Normal (nth i items JUndefined)
  | JObj fields => Normal (lookup (indexKey i) fields)
  | JStr s =>
      Normal match String.get i s with
             | Some c => JStr (String c "")
             | None => JUndefined
             end
  | _ => Normal JUndefined
  end.

Definition lowerChar (c : ascii) : ascii :=
  let n := nat_of_ascii c in
  if ((65 <=? n) && (n <=? 90))%nat then ascii_of_nat (n + 32) else c.

Fixpoint lowerString (s : string) : string :=
  match s with
  | EmptyString => EmptyString
  | String c rest => String (lowerChar c) (lowerString rest)
  end.

(** [v.toLowerCase()]: only a string has the method. *)
Definition toLowerCase (v : JsVal) : Completion string :=
  match v with
  | JStr s => Normal (lowerString s)
  | _ => Throw TypeError
  end.

Section Coercions.
Context {RT : Runtime}.

(** ToString, as a template literal applies it. *)
Fixpoint ToString (v : JsVal) : string :=
  match v with
  | JUndefined => "undefined"
  | JNull => "null"
  | JBool b => if b then "true" else "false"
  | JNum x => NumberToString x
  | JStr s => s
  | JArr items =>
      (fix join (l : list JsVal) : string :=
         match l with
         | [] => ""
         | x :: rest =>
             let elem := match x with
                         | JUndefined | JNull => ""
                         | _ => ToString x
                         end in
             match rest with
             | [] => elem
             | _ :: _ => elem ++ "," ++ join rest
             end
         end) items
  | JObj _ => "[object Object]"
  end.

(** ToNumber, as the arithmetic operators apply it. *)
Definition ToNumber (v : JsVal) : float :=
  match v with
  | JUndefined => nan
  | JNull => 0%float
  | JBool b => if b then 1%float else 0%float
  | JNum x => x
  | JStr s => StringToNumber s
  | JArr _ | JObj _ => StringToNumber (ToString v)
  end.

(** ToPrimitive: an array or an object becomes its string. *)
Definition ToPrimitive (v : JsVal) : JsVal :=
  if isObject v then JStr (ToString v) else v.

Definition boolToNumber (v : JsVal) : JsVal :=
  match v with
  | JBool _ => JNum (ToNumber v)
  | _ => v
  end.

(** [x == y] where neither operand is a boolean or an object. *)
Definition looseEqPrim (x y : JsVal) : bool :=
  match x, y with
  | JUndefined, JUndefined | JUndefined, JNull
  | JNull, JUndefined | JNull, JNull => true
  | JNum a, JNum b => (a =? b)%float
  | JStr a, JStr b => String.eqb a b
  | JNum a, JStr b => (a =? StringToNumber b)%float
  | JStr a, JNum b => (StringToNumber a =? b)%float
  | _, _ => false
  end.

(** [x == y].  Two objects are equal when they are the same reference; the
    operands the plugin compares come from different documents, so two
    objects are never equal here. *)
Definition looseEq (x y : JsVal) : bool :=
  if isObject x && isObject y then false
  else looseEqPrim (boolToNumber (ToPrimitive x)) (boolToNumber (ToPrimitive y)).

(** [value * k] *)
Definition jsMul (value : JsVal) (k : float) : JsVal :=
  JNum (ToNumber value * k)%float.

(** [value + k]: concatenation when [value] is, or becomes, a string. *)
Definition jsAdd (value : JsVal) (k : float) : JsVal :=
  match ToPrimitive value with
  | JStr s => JStr (s ++ NumberToString k)
  | p => JNum (ToNumber p + k)%float
  end.

End Coercions.

(** ** Effects

    What a function of the plugin does besides returning: lines handed to
    [app.debug], deltas handed to [app.handleMessage], and requests handed to
    [request.get].  A request carries the callback that will receive its
    reply. *)

Inductive Callback : Type :=
| StationsCallback (lat lng : JsVal)
| StationDataCallback (station : JsVal) (url : string).

Inductive Effect : Type :=
| app_debug (msg : JsVal)
| app_handleMessage (id : string) (delta : JsVal)
| request_get (url : string) (userAgentHeader : string) (callback : Callback).

(** The effects performed, in order, and how the function completed.  The
    effects performed before a [Throw] are kept. *)
Definition M (A : Type) : Type := (list Effect * Completion A)%type.

Definition ret {A : Type} (a : A) : M A := ([], Normal a).

Definition bind {A B : Type} (m : M A) (k : A -> M B) : M B :=
  match m with
  | (es, Normal a) => let (es', c) := k a in ((es ++ es')%list, c)
  | (es, Throw e) => (es, Throw e)
  end.

Definition lift {A : Type} (c : Completion A) : M A := ([], c).

Definition emit (e : Effect) : M unit := ([e], Normal tt).

Declare Scope js_scope.
Delimit Scope js_scope with js.
Notation "x <- c ;; k" := (bind c (fun x => k))
  (at level 61, c at next level, right associativity) : js_scope.
Notation "c ;;; k" := (bind c (fun _ => k))
  (at level 61, right associativity) : js_scope.
Notation "x <~ c ;; k" := (cbind c (fun x => k))
  (at level 61, c at next level, right associativity) : js_scope.

(** ** The plugin *)

Definition observationsKey : string := "observations.noaa".
Definition userAgent : string := "Signal K NOAA Observations Plugin".
Definition checkEveryNMinutes : float := 15%float.
Definition distanceLimit : float := 100%float.

Definition plugin_id : string := "noaa-observations".
Definition plugin_name : string := "NOAA Observations".

Inductive Timer : Type :=
| setTimeout (ms : float)
| setInterval (ms : float).

Section Plugin.
Context {RT : Runtime}.
Local Open Scope js_scope.

Definition kilometersPerHourToMetersPerSecond (value : JsVal) : JsVal :=
  if isNull value then JNull
  else jsMul value 0.2777777777777778%float.

Definition degreesToRadians (value : JsVal) : JsVal :=
  if isNull value then JNull
  else jsMul value 0.0174533%float.

Definition celsiusToKelvin (value : JsVal) : JsVal :=
  if isNull value then JNull
  else jsAdd value 273.15%float.

(** The value of [dist] after line 195: the law of cosines on the sphere. *)
Definition lawOfCosines (lat1 lon1 lat2 lon2 : JsVal) : float :=
  let radlat1 := (Math_PI * ToNumber lat1 / 180)%float in
  let radlat2 := (Math_PI * ToNumber lat2 / 180)%float in
  let theta := (ToNumber lon1 - ToNumber lon2)%float in
  let radtheta := (Math_PI * theta / 180)%float in
  (Math_sin radlat1 * Math_sin radlat2
   + Math_cos radlat1 * Math_cos radlat2 * Math_cos radtheta)%float.

Definition calculateDistance (lat1 lon1 lat2 lon2 : JsVal) : float :=
  if looseEq lat1 lat2 && looseEq lon1 lon2 then 0%float
  else
    let dist := lawOfCosines lat1 lon1 lat2 lon2 in
    let dist := if (1 <? dist)%float then 1%float else dist in
    let dist := Math_acos dist in
    let dist := (dist * 180 / Math_PI)%float in
    let dist := (dist * 60 * 1.1515)%float in
    let dist := (dist * 0.8684)%float in
    dist.

(** [!error && response.statusCode == 200] *)
Definition requestSucceeded (error response : JsVal) : Completion bool :=
  if negb (truthy error) then
    statusCode <~ getProp response "statusCode" ;;
    Normal (looseEq statusCode (JNum 200%float))
  else Normal false.

Definition pathValue (path : string) (value : JsVal) : JsVal :=
  JObj [("path", JStr path); ("value", value)].

(** Lines 95 to 143 of the callback of [retrieveStationData]: the array
    [values] built from the station and from the reply. *)
Definition stationValues (station data : JsVal) : Completion (list JsVal) :=
  timeStamp <~ getPath data ["properties"; "timestamp"] ;;
  textDesc <~ getPath data ["properties"; "textDescription"] ;;
  temperature <~ getPath data ["properties"; "temperature"; "value"] ;;
  windDirection <~ getPath data ["properties"; "windDirection"; "value"] ;;
  windSpeed <~ getPath data ["properties"; "windSpeed"; "value"] ;;
  windGust <~ getPath data ["properties"; "windGust"; "value"] ;;
  pressure <~ getPath data ["properties"; "barometricPressure"; "value"] ;;
  stationIdentifier <~ getPath station ["properties"; "stationIdentifier"] ;;
  stationId <~ toLowerCase stationIdentifier ;;
  name <~ getPath station ["properties"; "name"] ;;
  coordinates0 <~ getPath data ["geometry"; "coordinates"] ;;
  longitude <~ getIndex coordinates0 0 ;;
  coordinates1 <~ getPath data ["geometry"; "coordinates"] ;;
  latitude <~ getIndex coordinates1 1 ;;
  Normal
    [ pathValue (observationsKey ++ "." ++ stationId ++ ".name") name;
      pathValue (observationsKey ++ "." ++ stationId ++ ".weatherText") textDesc;
      pathValue (observationsKey ++ "." ++ stationId ++ ".date") timeStamp;
      pathValue (observationsKey ++ "." ++ stationId ++ ".position")
        (JObj [("longitude", longitude); ("latitude", latitude)]);
      pathValue (observationsKey ++ "." ++ stationId ++ ".wind.speed")
        (kilometersPerHourToMetersPerSecond windSpeed);
      pathValue (observationsKey ++ "." ++ stationId ++ ".wind.gust")
        (kilometersPerHourToMetersPerSecond windGust);
      pathValue (observationsKey ++ "." ++ stationId ++ ".wind.direction")
        (degreesToRadians windDirection);
      pathValue (observationsKey ++ "." ++ stationId ++ ".temperature")
        (celsiusToKelvin temperature);
      pathValue (observationsKey ++ "." ++ stationId ++ ".pressure") pressure ].

(** The function [retrieveStationData] passes to [request.get]. *)
Definition retrieveStationData_callback (station : JsVal) (url : string)
    (error response data : JsVal) : M unit :=
  ok <- lift (requestSucceeded error response) ;;
  if ok : bool then
    values <- lift (stationValues station data) ;;
    emit (app_handleMessage "signalk-noaa-observations"
            (JObj [("updates", JArr [JObj [("values", JArr values)]])]))
  else
    emit (app_debug (JStr ("Error retrieving " ++ url ++ ": "
                           ++ ToString (JSON_stringify response)))).

Definition retrieveStationData (station : JsVal) : M unit :=
  id <- lift (getProp station "id") ;;
  let url := ToString id ++ "/observations/latest" in
  emit (request_get url userAgent (StationDataCallback station url)).

(** The body of the loop of [retrieveObservations]. *)
Definition visitStation (lat lng station : JsVal) : M unit :=
  coordinates0 <- lift (getPath station ["geometry"; "coordinates"]) ;;
  stationLng <- lift (getIndex coordinates0 0) ;;
  coordinates1 <- lift (getPath station ["geometry"; "coordinates"]) ;;
  stationLat <- lift (getIndex coordinates1 1) ;;
  let distanceToStation := calculateDistance lat lng stationLat stationLng in
  if (distanceToStation <=? distanceLimit)%float then
    name <- lift (getPath station ["properties"; "name"]) ;;
    emit (app_debug (JStr ("Distance to " ++ ToString name ++ " is "
                           ++ NumberToString distanceToStation ++ " miles"))) ;;;
    retrieveStationData station
  else ret tt.

Fixpoint forEachStation (lat lng : JsVal) (stations : list JsVal) : M unit :=
  match stations with
  | [] => ret tt
  | station :: rest =>
      visitStation lat lng station ;;; forEachStation lat lng rest
  end.

Definition indexNumber (i : nat) : float := of_uint63 (Uint63.of_Z (Z.of_nat i)).

(** The elements [stations[i]] of an object that is not an array, for
    [i = 0, 1, ...] while [i < stations.length].  [fuel] is one more than
    the number of keys: some index below it is missing from the object, and
    the body of the loop throws on the [undefined] it reads there. *)
Fixpoint objectItems (fields : list (string * JsVal)) (fuel i : nat) : list JsVal :=
  match fuel with
  | O => []
  | S fuel' =>
      if (indexNumber i <? ToNumber (lookup "length" fields))%float
      then lookup (indexKey i) fields :: objectItems fields fuel' (S i)
      else []
  end.

(** The values the loop [for (i = 0; i < stations.length; i++)] visits. *)
Definition loopItems (stations : JsVal) : Completion (list JsVal) :=
  match stations with
  | JUndefined | JNull => Throw TypeError
  | JArr items => Normal items
  | JStr s => Normal (map (fun c => JStr (String c "")) (list_ascii_of_string s))
  | JObj fields => Normal (objectItems fields (S (length fields)) 0)
  | JBool _ | JNum _ => Normal []
  end.

(** The function [retrieveObservations] passes to [request.get]. *)
Definition retrieveObservations_callback (lat lng : JsVal)
    (error response data : JsVal) : M unit :=
  ok <- lift (requestSucceeded error response) ;;
  if ok : bool then
    stations <- lift (getProp data "features") ;;
    items <- lift (loopItems stations) ;;
    forEachStation lat lng items
  else
    emit (app_debug (JStr "Error retrieving stations ${JSON.stringify(response)}")).

Definition retrieveObservations (lat lng : JsVal) : M unit :=
  let url := "https://api.weather.gov/points/" ++ ToString lat ++ ","
             ++ ToString lng ++ "/stations" in
  emit (request_get url userAgent (StationsCallback lat lng)).

(** [app_getSelfPath] is the host's [app.getSelfPath]. *)
Definition checkAndPublishObservations (app_getSelfPath : string -> JsVal) : M unit :=
  let position := app_getSelfPath "navigation.position" in
  if negb (truthy position) then
    emit (app_debug (JSON_stringify position))
  else
    lat <- lift (getPath position ["value"; "latitude"]) ;;
    lng <- lift (getPath position ["value"; "longitude"]) ;;
    retrieveObservations lat lng.

(** [plugin.start] registers two timers; both run
    [checkAndPublishObservations]. *)
Definition plugin_start : list Timer :=
  [ setTimeout 5000%float;
    setInterval (checkEveryNMinutes * 60 * 1000)%float ].

Definition onTimer (t : Timer) (app_getSelfPath : string -> JsVal) : M unit :=
  checkAndPublishObservations app_getSelfPath.

(** *** Replies and the tasks of one cycle *)

Record Reply : Type := {
  error : JsVal;
  response : JsVal;
  data : JsVal
}.

Definition runCallback (cb : Callback) (r : Reply) : M unit :=
  match cb with
  | StationsCallback lat lng =>
      retrieveObservations_callback lat lng (error r) (response r) (data r)
  | StationDataCallback station url =>
      retrieveStationData_callback station url (error r) (response r) (data r)
  end.

(** The tasks the requests among [effects] give rise to: each callback on
    the reply to its request, in the order the requests were issued. *)
Definition dispatch (http : string -> Reply) (effects : list Effect) : list (M unit) :=
  flat_map (fun e => match e with
                     | request_get url _ cb => [runCallback cb (http url)]
                     | _ => []
                     end) effects.

(** One timer trigger and everything it sets off: the timer's task, the
    task of the stations reply, the tasks of the observation replies. *)
Definition cycle (http : string -> Reply) (app_getSelfPath : string -> JsVal)
    : list (M unit) :=
  let t0 := checkAndPublishObservations app_getSelfPath in
  let ts1 := dispatch http (fst t0) in
  let ts2 := flat_map (fun t => dispatch http (fst t)) ts1 in
  (t0 :: ts1 ++ ts2)%list.

End Plugin.

(** ** A runtime to run the model on examples

    [Math.sin], [Math.cos] and [Math.acos] tabulated at the arguments the
    examples below reach, with the values of the correctly rounded functions
    (the C library and the fdlibm kernels agree on them).  [Math.acos] is
    [NaN] outside [[-1, 1]], as ECMAScript requires.  Numbers are printed
    from a table too; [StringToNumber], which the examples do not reach, and
    [JSON.stringify] are placeholders. *)

Fixpoint tabulate (table : list (float * float)) (x : float) : float :=
  match table with
  | [] => nan
  | (a, v) :: rest => if (a =? x)%float then v else tabulate rest x
  end.

Definition sinTable : list (float * float) :=
  [ (0.13962634015954636, 0.13917310096006544);
    (-0.13962634015954636, -0.13917310096006544);
    (0.7391469382195985, 0.6736577070565727);
    (0.7393319431203099, 0.6737944221964072);
    (0.7281949971633341, 0.6655235074819292);
    (0.7117347969877758, 0.6531483934064284) ]%float.

Definition cosTable : list (float * float) :=
  [ (0.13962634015954636, 0.9902680687415704);
    (-0.13962634015954636, 0.9902680687415704);
    (-3.141592653589793, -1);
    (0.7391469382195985, 0.7390434992091337);
    (0.7393319431203099, 0.7389188565850853);
    (0.7281949971633341, 0.7463768893722195);
    (0.7117347969877758, 0.7572299361426498);
    (-0.0007033676885537498, 0.9999997526369575);
    (0.006675884388878439, 0.9999777163665737);
    (0.04939805381919565, 0.9987801642200297) ]%float.

Definition acosTable : list (float * float) :=
  [ (0.9999998478033236, 0.0005517185518605182);
    (0.9999277363296479, 0.012022024846798152);
    (0.9989416591331175, 0.04601146814620726) ]%float.

Definition numberTable : list (float * string) :=
  [ (42.35%float, "42.35");
    ((-71.05)%float, "-71.05");
    (1.8965977346323801%float, "1.8965977346323801");
    (41.32713140285328%float, "41.32713140285328") ].

Fixpoint printNumber (table : list (float * string)) (x : float) : string :=
  match table with
  | [] => "NaN"
  | (a, text) :: rest => if (a =? x)%float then text else printNumber rest x
  end.

Definition sampleRuntime : Runtime := {|
  Math_sin := tabulate sinTable;
  Math_cos := tabulate cosTable;
  Math_acos := fun x =>
    if ((x <? -1) || (1 <? x))%float then nan else tabulate acosTable x;
  StringToNumber := fun _ => nan;
  NumberToString := printNumber numberTable;
  JSON_stringify := fun v =>
    match v with
    | JUndefined => JUndefined
    | JNull => JStr "null"
    | _ => JStr "{}"
    end
|}.

(** A position node as [app.getSelfPath] returns it. *)
Definition positionNode (latitude longitude : float) : JsVal :=
  JObj [("value", JObj [("latitude", JNum latitude); ("longitude", JNum longitude)])].

(** A feature of the stations reply. *)
Definition stationFeature (id identifier name : string) (latitude longitude : float) : JsVal :=
  JObj [("id", JStr id);
        ("properties", JObj [("stationIdentifier", JStr identifier); ("name", JStr name)]);
        ("geometry", JObj [("coordinates", JArr [JNum longitude; JNum latitude])])].

Definition quantity (value : JsVal) : JsVal :=
  JObj [("unitCode", JStr "wmoUnit"); ("value", value)].

(** A latest-observation document with the given [properties]. *)
Definition observationDoc (properties : list (string * JsVal))
    (latitude longitude : float) : JsVal :=
  JObj [("geometry", JObj [("coordinates", JArr [JNum longitude; JNum latitude])]);
        ("properties", JObj properties)].

Definition httpOk (body : JsVal) : Reply :=
  {| error := JNull; response := JObj [("statusCode", JNum 200%float)]; data := body |}.

Definition httpStatus (code : float) : Reply :=
  {| error := JNull; response := JObj [("statusCode", JNum code)]; data := JUndefined |}.

Definition transportError : Reply :=
  {| error := JObj [("code", JStr "ECONNRESET")]; response := JUndefined; data := JUndefined |}.

Definition KBOS : JsVal :=
  stationFeature "https://api.weather.gov/stations/KBOS" "KBOS" "Boston, Logan"
    42.3606%float (-71.0097)%float.
Definition KPVD : JsVal :=
  stationFeature "https://api.weather.gov/stations/KPVD" "KPVD" "Providence"
    41.7225%float (-71.4325)%float.
Definition KLGA : JsVal :=
  stationFeature "https://api.weather.gov/stations/KLGA" "KLGA" "New York, La Guardia"
    40.7794%float (-73.8803)%float.

Definition bostonObservation : JsVal :=
  observationDoc
    [ ("timestamp", JStr "2022-05-01T12:54:00+00:00");
      ("textDescription", JStr "Mostly Cloudy");
      ("temperature", quantity (JNum 0%float));
      ("windDirection", quantity (JNum 180%float));
      ("windSpeed", quantity (JNum 18%float));
      ("windGust", quantity JNull);
      ("barometricPressure", quantity (JNum 101320%float)) ]
    42.3606%float (-71.0097)%float.

(** The same observation with a [windGust] that has no [value]. *)
Definition observationWithoutGustValue : JsVal :=
  observationDoc
    [ ("timestamp", JStr "2022-05-01T12:54:00+00:00");
      ("textDescription", JStr "Mostly Cloudy");
      ("temperature", quantity (JNum 0%float));
      ("windDirection", quantity (JNum 180%float));
      ("windSpeed", quantity (JNum 18%float));
      ("windGust", JObj [("unitCode", JStr "wmoUnit")]);
      ("barometricPressure", quantity (JNum 101320%float)) ]
    42.3606%float (-71.0097)%float.

(** The same observation without [windGust]. *)
Definition observationWithoutGust : JsVal :=
  observationDoc
    [ ("timestamp", JStr "2022-05-01T12:54:00+00:00");
      ("textDescription", JStr "Mostly Cloudy");
      ("temperature", quantity (JNum 0%float));
      ("windDirection", quantity (JNum 180%float));
      ("windSpeed", quantity (JNum 18%float));
      ("barometricPressure", quantity (JNum 101320%float)) ]
    42.3606%float (-71.0097)%float.

(** The provider as the examples see it: three stations around Boston, of
    which La Guardia is out of range; Providence's observation fails. *)
Definition sampleHttp (url : string) : Reply :=
  if String.eqb url "https://api.weather.gov/points/42.35,-71.05/stations"
  then httpOk (JObj [("features", JArr [KBOS; KLGA; KPVD])])
  else if String.eqb url "https://api.weather.gov/stations/KBOS/observations/latest"
  then httpOk bostonObservation
  else httpStatus 503%float.

Definition samplePosition (name : string) : JsVal :=
  positionNode 42.35%float (-71.05)%float.


(** ** Vocabulary of the statements *)

Section Vocabulary.
Context {RT : Runtime}.

(** The distance the loop computes for a station. *)
Definition stationDistance (lat lng station : JsVal) : Completion float :=
  (coordinates <~ getPath station ["geometry"; "coordinates"] ;;
   stationLng <~ getIndex coordinates 0 ;;
   stationLat <~ getIndex coordinates 1 ;;
   Normal (calculateDistance lat lng stationLat stationLng))%js.

(** The station is within [distanceLimit] of the position. *)
Definition withinLimit (lat lng station : JsVal) : bool :=
  match stationDistance lat lng station with
  | Normal d => (d <=? distanceLimit)%float
  | Throw _ => false
  end.

(** The station has coordinates and properties to read. *)
Definition readableStation (station : JsVal) : bool :=
  match getPath station ["geometry"; "coordinates"],
        getPath station ["properties"; "name"] with
  | Normal coordinates, Normal _ => negb (isNullish coordinates)
  | _, _ => false
  end.

(** The URL of a station's latest observation. *)
Definition stationUrl (station : JsVal) : string :=
  ToString (lookup "id" match station with JObj fields => fields | _ => [] end)
  ++ "/observations/latest".

(** What the loop does for a station in range: one debug line and one
    request. *)
Definition stationEffects (lat lng station : JsVal) : list Effect :=
  match stationDistance lat lng station, getPath station ["properties"; "name"] with
  | Normal d, Normal name =>
      [ app_debug (JStr ("Distance to " ++ ToString name ++ " is "
                         ++ NumberToString d ++ " miles"));
        request_get (stationUrl station) userAgent
          (StationDataCallback station (stationUrl station)) ]
  | _, _ => []
  end.

(** The stations a list of effects requests an observation of, in order. *)
Definition requestedStations (effects : list Effect) : list JsVal :=
  flat_map (fun e => match e with
                     | request_get _ _ (StationDataCallback station _) => [station]
                     | _ => []
                     end) effects.

(** The deltas a list of effects publishes. *)
Definition published (effects : list Effect) : list JsVal :=
  flat_map (fun e => match e with
                     | app_handleMessage _ delta => [delta]
                     | _ => []
                     end) effects.

(** The requests a list of effects issues. *)
Definition requests (effects : list Effect) : list string :=
  flat_map (fun e => match e with
                     | request_get url _ _ => [url]
                     | _ => []
                     end) effects.

(** The URL of the stations around a position. *)
Definition stationsUrl (lat lng : JsVal) : string :=
  "https://api.weather.gov/points/" ++ ToString lat ++ ","
  ++ ToString lng ++ "/stations".

(** The reply reports a transport error or a status other than 200. *)
Definition failed (r : Reply) : Prop :=
  requestSucceeded (error r) (response r) = Normal false.

(** The line a failed observation request logs. *)
Definition observationErrorLine (url : string) (r : Reply) : Effect :=
  app_debug (JStr ("Error retrieving " ++ url ++ ": "
                   ++ ToString (JSON_stringify (response r)))).

(** The fields the callback of [retrieveStationData] reads from a reply. *)
Record Observation : Type := {
  timestamp : JsVal;
  textDescription : JsVal;
  temperature : JsVal;
  windDirection : JsVal;
  windSpeed : JsVal;
  windGust : JsVal;
  barometricPressure : JsVal;
  longitude : JsVal;
  latitude : JsVal
}.

(** Every read of the callback succeeds on [data], and yields the fields
    of [o]. *)
Definition readsObservation (data : JsVal) (o : Observation) : Prop :=
  getPath data ["properties"; "timestamp"] = Normal (timestamp o)
  /\ getPath data ["properties"; "textDescription"] = Normal (textDescription o)
  /\ getPath data ["properties"; "temperature"; "value"] = Normal (temperature o)
  /\ getPath data ["properties"; "windDirection"; "value"] = Normal (windDirection o)
  /\ getPath data ["properties"; "windSpeed"; "value"] = Normal (windSpeed o)
  /\ getPath data ["properties"; "windGust"; "value"] = Normal (windGust o)
  /\ getPath data ["properties"; "barometricPressure"; "value"]
     = Normal (barometricPressure o)
  /\ (coordinates <~ getPath data ["geometry"; "coordinates"] ;;
      getIndex coordinates 0)%js = Normal (longitude o)
  /\ (coordinates <~ getPath data ["geometry"; "coordinates"] ;;
      getIndex coordinates 1)%js = Normal (latitude o).

(** The station has the identifier [id], a string, and the name [name]. *)
Definition readsStation (station : JsVal) (id : string) (name : JsVal) : Prop :=
  getPath station ["properties"; "stationIdentifier"] = Normal (JStr id)
  /\ getPath station ["properties"; "name"] = Normal name.

End Vocabulary.

(** What the callback reads from [bostonObservation]. *)
Definition bostonFields : Observation := {|
  timestamp := JStr "2022-05-01T12:54:00+00:00";
  textDescription := JStr "Mostly Cloudy";
  temperature := JNum 0%float;
  windDirection := JNum 180%float;
  windSpeed := JNum 18%float;
  windGust := JNull;
  barometricPressure := JNum 101320%float;
  longitude := JNum (-71.0097)%float;
  latitude := JNum 42.3606%float
|}.


(** The [value] of the [k]-th entry of a [values] array. *)
Definition valueAt (values : list JsVal) (k : nat) : Completion JsVal :=
  getProp (nth k values JUndefined) "value".

(** ** Further vocabulary *)

(** The array [values] the callback of [retrieveStationData] builds for a
    station with identifier [id] and name [name] from the fields [o]. *)
Definition updateValues {RT : Runtime} (id : string) (name : JsVal) (o : Observation)
    : list JsVal :=
  [ pathValue (observationsKey ++ "." ++ lowerString id ++ ".name") name;
    pathValue (observationsKey ++ "." ++ lowerString id ++ ".weatherText")
      (textDescription o);
    pathValue (observationsKey ++ "." ++ lowerString id ++ ".date") (timestamp o);
    pathValue (observationsKey ++ "." ++ lowerString id ++ ".position")
      (JObj [("longitude", longitude o); ("latitude", latitude o)]);
    pathValue (observationsKey ++ "." ++ lowerString id ++ ".wind.speed")
      (kilometersPerHourToMetersPerSecond (windSpeed o));
    pathValue (observationsKey ++ "." ++ lowerString id ++ ".wind.gust")
      (kilometersPerHourToMetersPerSecond (windGust o));
    pathValue (observationsKey ++ "." ++ lowerString id ++ ".wind.direction")
      (degreesToRadians (windDirection o));
    pathValue (observationsKey ++ "." ++ lowerString id ++ ".temperature")
      (celsiusToKelvin (temperature o));
    pathValue (observationsKey ++ "." ++ lowerString id ++ ".pressure")
      (barometricPressure o) ].

(** The delta handed to [app.handleMessage]. *)
Definition deltaOf (values : list JsVal) : JsVal :=
  JObj [("updates", JArr [JObj [("values", JArr values)]])].

(** The value is [undefined] or the number [NaN]. *)
Definition notANumber (v : JsVal) : bool :=
  match v with
  | JUndefined => true
  | JNum x => is_nan x
  | _ => false
  end.

(** The station's coordinates are an array that starts with two numbers. *)
Definition numericCoordinates (station : JsVal) : bool :=
  match getPath station ["geometry"; "coordinates"] with
  | Normal (JArr (JNum _ :: JNum _ :: _)) => true
  | _ => false
  end.

(** A request carries the plugin's [User-Agent]. *)
Definition hasUserAgent (e : Effect) : Prop :=
  match e with
  | request_get _ header _ => header = userAgent
  | _ => True
  end.

(** The timers of the event loop.  [plugin.start] adds its two timers to
    them; [plugin.stop] has an empty body and leaves them as they are. *)
Definition plugin_start_on (timers : list Timer) : list Timer :=
  (timers ++ plugin_start)%list.

Definition plugin_stop (timers : list Timer) : list Timer := timers.

(** The host starts and stops the plugin [n] times. *)
Fixpoint restart (n : nat) (timers : list Timer) : list Timer :=
  match n with
  | O => timers
  | S n' => restart n' (plugin_stop (plugin_start_on timers))
  end.

Definition isInterval (t : Timer) : bool :=
  match t with
  | setInterval _ => true
  | setTimeout _ => false
  end.

(** A runtime for two points on the parallel of 8 degrees that are a billionth
    of a degree apart: the values of [Math.sin] and [Math.cos] reached, and
    [Math.acos 1 = 0]. *)
Definition nearbyRuntime : Runtime := {|
  Math_sin := tabulate [ (0.13962634015954636, 0.13917310096006544) ]%float;
  Math_cos := tabulate [ (0.13962634015954636, 0.9902680687415704);
                         (-1.7453292519943296e-11, 1) ]%float;
  Math_acos := fun x =>
    if ((x <? -1) || (1 <? x))%float then nan else tabulate [ (1, 0) ]%float x;
  StringToNumber := fun _ => nan;
  NumberToString := printNumber numberTable;
  JSON_stringify := fun _ => JUndefined
|}.

(** A station at the antipode of (8, 0). *)
Definition antipodeStation : JsVal :=
  stationFeature "https://api.weather.gov/stations/ANTI" "ANTI" "Antipode"
    (-8)%float 180%float.

(** What the loop of [retrieveObservations] can do: log a line or request a
    station's observation. *)
Definition loopEffect (e : Effect) : bool :=
  match e with
  | app_debug _ => true
  | request_get _ _ (StationDataCallback _ _) => true
  | _ => false
  end.

(** The body of the stations reply has no [features] to loop over. *)
Definition lacksFeatures (data : JsVal) : bool :=
  match getProp data "features" with
  | Normal features => isNullish features
  | Throw _ => true
  end.


(** * Properties *)

(** ** Floating-point facts *)

Lemma float_eqb_refl (x : float) : is_nan x = false -> (x =? x)%float = true.
Proof.
  unfold is_nan. destruct (x =? x)%float; simpl; congruence.
Qed.

(** ** The examples run *)

Example sample_distances :
  calculateDistance (RT := sampleRuntime) (JNum 42.35%float) (JNum (-71.05)%float)
    (JNum 42.3606%float) (JNum (-71.0097)%float) = 1.8965977346323801%float
  /\ calculateDistance (RT := sampleRuntime) (JNum 42.35%float) (JNum (-71.05)%float)
    (JNum 41.7225%float) (JNum (-71.4325)%float) = 41.32713140285328%float
  /\ calculateDistance (RT := sampleRuntime) (JNum 42.35%float) (JNum (-71.05)%float)
    (JNum 40.7794%float) (JNum (-73.8803)%float) = 158.16986026467427%float.
Proof. repeat split; vm_compute; reflexivity. Qed.

(** ** Unit conversions *)

Section Conversions.
Context {RT : Runtime}.
Local Open Scope float_scope.

(** C5: [kilometersPerHourToMetersPerSecond] and [celsiusToKelvin] are
    total functions on a number or [null]: on [null] each returns [null];
    on a number [v] the first returns [v * 0.2777777777777778], where the
    constant is the double nearest to 5/18, and the second returns
    [v + 273.15].  So 36 km/h is 10 m/s and 0 degrees Celsius is
    273.15 K. *)
Theorem unit_converters_total (v : float) :
  kilometersPerHourToMetersPerSecond JNull = JNull
  /\ celsiusToKelvin JNull = JNull
  /\ kilometersPerHourToMetersPerSecond (JNum v) = JNum (v * 0.2777777777777778)
  /\ celsiusToKelvin (JNum v) = JNum (v + 273.15)
  /\ 0.2777777777777778 = 5 / 18
  /\ kilometersPerHourToMetersPerSecond (JNum 36) = JNum 10
  /\ celsiusToKelvin (JNum 0) = JNum 273.15.
Proof.
  repeat split; reflexivity.
Qed.

(** C4: [degreesToRadians] returns [null] on [null] and multiplies a number
    by the six-digit constant 0.0174533, not by pi/180: at 180 degrees it
    returns 3.1415940000000004, which is more than a millionth above
    [Math.PI], while [180 * (Math.PI / 180)] is [Math.PI]. *)
Theorem degreesToRadians_truncated_constant (v : float) :
  degreesToRadians JNull = JNull
  /\ degreesToRadians (JNum v) = JNum (v * 0.0174533)
  /\ Math_PI / 180 = 0.017453292519943295
  /\ 180 * (Math_PI / 180) = Math_PI
  /\ degreesToRadians (JNum 180) = JNum 3.1415940000000004
  /\ (1e-6 <? 3.1415940000000004 - Math_PI) = true.
Proof.
  repeat split; reflexivity.
Qed.

End Conversions.

(** ** Distance *)

Section Distance.
Context {RT : Runtime}.
Local Open Scope float_scope.

Lemma looseEq_number (a b : float) : looseEq (JNum a) (JNum b) = (a =? b).
Proof. reflexivity. Qed.

(** [NaN == NaN] is false, so the guard of [calculateDistance] fails on a
    coordinate that is [NaN]. *)
Lemma looseEq_NaN : looseEq (JNum nan) (JNum nan) = false.
Proof. reflexivity. Qed.

(** C7: the distance from a point to itself is exactly zero, for all
    coordinates that are numbers (a [NaN] is not equal to itself). *)
Theorem calculateDistance_same_point (lat lon : float) :
  is_nan lat = false ->
  is_nan lon = false ->
  calculateDistance (JNum lat) (JNum lon) (JNum lat) (JNum lon) = 0.
Proof.
  intros Hlat Hlon. unfold calculateDistance.
  rewrite !looseEq_number, (float_eqb_refl lat Hlat), (float_eqb_refl lon Hlon).
  reflexivity.
Qed.

Lemma clamp_at_most_one (d : float) :
  (1 <? (if 1 <? d then 1 else d)) = false.
Proof.
  destruct (1 <? d) eqn:E; [reflexivity | exact E].
Qed.

(** C6: the clamp keeps the argument of [Math.acos] from exceeding 1, for
    all inputs, but nothing keeps it from falling below -1.  For the
    antipodal points (8, 0) and (-8, 180) the law of cosines evaluates to
    -1.0000000000000002 and the distance is [NaN], in every runtime whose
    [Math.acos] is [NaN] below -1 and whose [Math.sin] and [Math.cos]
    return the correctly rounded values at the four arguments reached. *)
Theorem antipodal_distance_is_NaN :
  (forall x, (x <? -1) = true -> Math_acos x = nan) ->
  Math_sin 0.13962634015954636 = 0.13917310096006544 ->
  Math_sin (-0.13962634015954636) = -0.13917310096006544 ->
  Math_cos 0.13962634015954636 = 0.9902680687415704 ->
  Math_cos (-0.13962634015954636) = 0.9902680687415704 ->
  Math_cos (- Math_PI) = -1 ->
  (forall lat1 lon1 lat2 lon2,
      let d := lawOfCosines lat1 lon1 lat2 lon2 in
      (1 <? (if 1 <? d then 1 else d)) = false)
  /\ lawOfCosines (JNum 8) (JNum 0) (JNum (-8)) (JNum 180) = -1.0000000000000002
  /\ calculateDistance (JNum 8) (JNum 0) (JNum (-8)) (JNum 180) = nan.
Proof.
  intros Hacos Hs Hs' Hc Hc' Hpi.
  assert (Hd : lawOfCosines (JNum 8) (JNum 0) (JNum (-8)) (JNum 180)
               = -1.0000000000000002).
  { unfold lawOfCosines, ToNumber.
    change (Math_PI * 8 / 180) with 0.13962634015954636.
    change (Math_PI * -8 / 180) with (-0.13962634015954636).
    change (Math_PI * (0 - 180) / 180) with (- Math_PI).
    rewrite Hs, Hs', Hc, Hc', Hpi. reflexivity. }
  split; [| split].
  - intros. apply clamp_at_most_one.
  - exact Hd.
  - unfold calculateDistance. rewrite Hd.
    change (looseEq (JNum 8) (JNum (-8)) && looseEq (JNum 0) (JNum 180)) with false.
    cbv iota.
    change (1 <? -1.0000000000000002) with false. cbv iota zeta.
    rewrite Hacos by reflexivity. reflexivity.
Qed.

End Distance.

Lemma antipodal_distance_is_NaN_witness :
  (forall lat1 lon1 lat2 lon2,
      let d := lawOfCosines (RT := sampleRuntime) lat1 lon1 lat2 lon2 in
      (1 <? (if 1 <? d then 1 else d))%float = false)
  /\ lawOfCosines (RT := sampleRuntime)
       (JNum 8%float) (JNum 0%float) (JNum (-8)%float) (JNum 180%float)
     = (-1.0000000000000002)%float
  /\ calculateDistance (RT := sampleRuntime)
       (JNum 8%float) (JNum 0%float) (JNum (-8)%float) (JNum 180%float)
     = nan.
Proof.
  apply (antipodal_distance_is_NaN (RT := sampleRuntime)); try reflexivity.
  intros x Hx. simpl. rewrite Hx. reflexivity.
Defined.

Lemma calculateDistance_same_point_witness :
  calculateDistance (RT := sampleRuntime)
    (JNum 42.35%float) (JNum (-71.05)%float) (JNum 42.35%float) (JNum (-71.05)%float)
  = 0%float.
Proof.
  apply (calculateDistance_same_point (RT := sampleRuntime)); reflexivity.
Defined.

(** ** The timer task *)

Section TimerTask.
Context {RT : Runtime}.

(** C9: when the position is unavailable at a timer trigger, the task logs
    one debug line and completes normally: it issues no request, publishes
    nothing and throws nothing, and the cycle consists of that task
    alone. *)
Theorem missing_position_skips_cycle
    (t : Timer) (http : string -> Reply) (app_getSelfPath : string -> JsVal) :
  truthy (app_getSelfPath "navigation.position") = false ->
  onTimer t app_getSelfPath
  = ([app_debug (JSON_stringify (app_getSelfPath "navigation.position"))], Normal tt)
  /\ cycle http app_getSelfPath = [onTimer t app_getSelfPath].
Proof.
  intros Hpos.
  assert (Htask : checkAndPublishObservations app_getSelfPath
                  = ([app_debug (JSON_stringify (app_getSelfPath "navigation.position"))],
                     Normal tt)).
  { unfold checkAndPublishObservations. rewrite Hpos. reflexivity. }
  split.
  - exact Htask.
  - unfold cycle, onTimer. rewrite Htask. reflexivity.
Qed.

(** C10: the availability check tests the position object only.  A truthy
    position without a [value] makes [checkAndPublishObservations] throw a
    [TypeError] on reading [latitude], before anything is logged or
    requested; a position node that holds a timestamp only is such a
    position. *)
Theorem position_without_value_throws :
  (exists position,
      truthy position = true
      /\ getProp position "value" = Normal JUndefined
      /\ checkAndPublishObservations (fun _ => position) = ([], Throw TypeError))
  /\ (forall app_getSelfPath,
        truthy (app_getSelfPath "navigation.position") = true ->
        getProp (app_getSelfPath "navigation.position") "value" = Normal JUndefined ->
        checkAndPublishObservations app_getSelfPath = ([], Throw TypeError)).
Proof.
  split.
  - exists (JObj [("timestamp", JStr "2022-05-01T12:00:00.000Z")]).
    repeat split.
  - intros g Htruthy Hvalue.
    unfold checkAndPublishObservations. rewrite Htruthy. simpl.
    unfold cbind. rewrite Hvalue. reflexivity.
Qed.

End TimerTask.

Lemma missing_position_skips_cycle_witness :
  onTimer (RT := sampleRuntime) (setTimeout 5000%float) (fun _ => JUndefined)
  = ([app_debug JUndefined], Normal tt)
  /\ cycle (RT := sampleRuntime) sampleHttp (fun _ => JUndefined)
     = [onTimer (RT := sampleRuntime) (setTimeout 5000%float) (fun _ => JUndefined)].
Proof.
  apply (missing_position_skips_cycle (RT := sampleRuntime)
           (setTimeout 5000%float) sampleHttp (fun _ => JUndefined)).
  reflexivity.
Defined.

(** ** The published update *)





Section Update.
Context {RT : Runtime}.
Local Open Scope js_scope.

Ltac read_field H := rewrite H; cbn [cbind].

(** The array [values] of a station and a reply whose fields can all be
    read. *)
Lemma stationValues_reads (station data : JsVal) (o : Observation)
    (id : string) (name : JsVal) :
  readsStation station id name ->
  readsObservation data o ->
  stationValues station data
  = Normal
      [ pathValue (observationsKey ++ "." ++ lowerString id ++ ".name") name;
        pathValue (observationsKey ++ "." ++ lowerString id ++ ".weatherText")
          (textDescription o);
        pathValue (observationsKey ++ "." ++ lowerString id ++ ".date") (timestamp o);
        pathValue (observationsKey ++ "." ++ lowerString id ++ ".position")
          (JObj [("longitude", longitude o); ("latitude", latitude o)]);
        pathValue (observationsKey ++ "." ++ lowerString id ++ ".wind.speed")
          (kilometersPerHourToMetersPerSecond (windSpeed o));
        pathValue (observationsKey ++ "." ++ lowerString id ++ ".wind.gust")
          (kilometersPerHourToMetersPerSecond (windGust o));
        pathValue (observationsKey ++ "." ++ lowerString id ++ ".wind.direction")
          (degreesToRadians (windDirection o));
        pathValue (observationsKey ++ "." ++ lowerString id ++ ".temperature")
          (celsiusToKelvin (temperature o));
        pathValue (observationsKey ++ "." ++ lowerString id ++ ".pressure")
          (barometricPressure o) ].
Proof.
  intros [Hid Hname] (Hts & Htd & Htemp & Hdir & Hspeed & Hgust & Hpress & Hlon & Hlat).
  unfold stationValues.
  read_field Hts. read_field Htd. read_field Htemp. read_field Hdir.
  read_field Hspeed. read_field Hgust. read_field Hpress.
  read_field Hid. cbn [toLowerCase]. read_field Hname.
  destruct (getPath data ["geometry"; "coordinates"]) as [coordinates | e];
    cbn [cbind] in *; [| discriminate].
  rewrite Hlon, Hlat. reflexivity.
Qed.


End Update.


(** ** Fields without a value *)

Section NullFields.
Context {RT : Runtime}.
Local Open Scope js_scope.

(** C3, amended: for every successful reply whose fields can be read, so
    whose numeric field objects are present, a numeric field whose value is
    [null] is read as [null] without an error, and the update publishes
    [null] for it: every conversion returns [null] on [null], and the
    pressure is passed on as it is. *)
Theorem null_fields_stay_null (station data : JsVal) (url : string)
    (error response : JsVal) (o : Observation) (id : string) (name : JsVal) :
  requestSucceeded error response = Normal true ->
  readsStation station id name ->
  readsObservation data o ->
  exists values,
    retrieveStationData_callback station url error response data
    = ([app_handleMessage "signalk-noaa-observations"
          (JObj [("updates", JArr [JObj [("values", JArr values)]])])],
        Normal tt)
    /\ (windSpeed o = JNull -> valueAt values 4 = Normal JNull)
    /\ (windGust o = JNull -> valueAt values 5 = Normal JNull)
    /\ (windDirection o = JNull -> valueAt values 6 = Normal JNull)
    /\ (temperature o = JNull -> valueAt values 7 = Normal JNull)
    /\ (barometricPressure o = JNull -> valueAt values 8 = Normal JNull).
Proof.
  intros Hok Hstation Hdata.
  eexists. split.
  - unfold retrieveStationData_callback. rewrite Hok.
    cbn [lift bind]. rewrite (stationValues_reads _ _ _ _ _ Hstation Hdata).
    reflexivity.
  - repeat split; intros ->; reflexivity.
Qed.

End NullFields.

Lemma null_fields_stay_null_witness :
  exists values,
    retrieveStationData_callback (RT := sampleRuntime) KBOS
      "https://api.weather.gov/stations/KBOS/observations/latest"
      JNull (JObj [("statusCode", JNum 200%float)]) bostonObservation
    = ([app_handleMessage "signalk-noaa-observations"
          (JObj [("updates", JArr [JObj [("values", JArr values)]])])],
        Normal tt)
    /\ (windSpeed bostonFields = JNull -> valueAt values 4 = Normal JNull)
    /\ (windGust bostonFields = JNull -> valueAt values 5 = Normal JNull)
    /\ (windDirection bostonFields = JNull -> valueAt values 6 = Normal JNull)
    /\ (temperature bostonFields = JNull -> valueAt values 7 = Normal JNull)
    /\ (barometricPressure bostonFields = JNull -> valueAt values 8 = Normal JNull).
Proof.
  apply (null_fields_stay_null (RT := sampleRuntime) KBOS bostonObservation
           "https://api.weather.gov/stations/KBOS/observations/latest"
           JNull (JObj [("statusCode", JNum 200%float)])
           bostonFields "KBOS" (JStr "Boston, Logan")).
  - reflexivity.
  - split; reflexivity.
  - repeat split.
Defined.

(** C3 as stated fails.  A [windGust] without a [value] is read as
    [undefined] and published as [NaN], not as [null]; a reply without
    [windGust] makes the callback throw a [TypeError]. *)
Lemma absent_field_counterexample :
  (values <~ stationValues (RT := sampleRuntime) KBOS observationWithoutGustValue ;;
   valueAt values 5)%js = Normal (JNum nan)
  /\ getPath observationWithoutGustValue ["properties"; "windGust"; "value"]
     = Normal JUndefined
  /\ retrieveStationData_callback (RT := sampleRuntime) KBOS
       "https://api.weather.gov/stations/KBOS/observations/latest"
       JNull (JObj [("statusCode", JNum 200%float)]) observationWithoutGust
     = ([], Throw TypeError).
Proof.
  repeat split.
Qed.

(** ** The stations reply *)

Section Stations.
Context {RT : Runtime}.
Local Open Scope js_scope.

(** A request that did not succeed reported a transport error or a status
    that is not 200. *)
Lemma requestSucceeded_false_iff (error response : JsVal) :
  requestSucceeded error response = Normal false
  <-> truthy error = true
      \/ (truthy error = false
          /\ exists statusCode,
               getProp response "statusCode" = Normal statusCode
               /\ looseEq statusCode (JNum 200%float) = false).
Proof.
  unfold requestSucceeded. destruct (truthy error); cbn [negb]; split.
  - intros _. now left.
  - reflexivity.
  - destruct (getProp response "statusCode") as [c |]; cbn [cbind]; [| discriminate].
    intros H. right. split; [reflexivity |]. exists c. split; [reflexivity |].
    now injection H.
  - intros [H | [_ (c & Hc & Hne)]]; [discriminate |].
    rewrite Hc. cbn [cbind]. now rewrite Hne.
Qed.

(** A station whose coordinates can be read is an object. *)
Lemma readableStation_object (station : JsVal) :
  readableStation station = true -> exists fields, station = JObj fields.
Proof.
  unfold readableStation.
  destruct station; cbn; try discriminate. intros _. now eexists.
Qed.

Lemma getIndex_readable (coordinates : JsVal) (i : nat) :
  isNullish coordinates = false -> exists v, getIndex coordinates i = Normal v.
Proof.
  destruct coordinates; cbn; try discriminate; intros _; eexists; reflexivity.
Qed.

(** The body of the loop, on a readable station. *)
Lemma visitStation_readable (lat lng station : JsVal) :
  readableStation station = true ->
  visitStation lat lng station
  = (if withinLimit lat lng station then stationEffects lat lng station else [],
     Normal tt).
Proof.
  intros Hr. destruct (readableStation_object _ Hr) as [fields ->].
  unfold readableStation in Hr.
  unfold visitStation, withinLimit, stationEffects, stationDistance.
  destruct (getPath (JObj fields) ["geometry"; "coordinates"]) as [c |] eqn:Ec;
    [| discriminate].
  destruct (getPath (JObj fields) ["properties"; "name"]) as [name |] eqn:En;
    [| discriminate].
  apply negb_true_iff in Hr.
  destruct (getIndex_readable c 0 Hr) as [x0 E0].
  destruct (getIndex_readable c 1 Hr) as [x1 E1].
  cbn [lift bind cbind app]. rewrite E0, E1. cbn [lift bind cbind app].
  destruct (calculateDistance lat lng x1 x0 <=? distanceLimit)%float; reflexivity.
Qed.

Lemma forEachStation_readable (lat lng : JsVal) (stations : list JsVal) :
  Forall (fun station => readableStation station = true) stations ->
  forEachStation lat lng stations
  = (flat_map (stationEffects lat lng) (filter (withinLimit lat lng) stations),
     Normal tt).
Proof.
  induction 1 as [| station rest Hr _ IH]; [reflexivity |].
  cbn [forEachStation filter]. rewrite (visitStation_readable _ _ _ Hr), IH.
  cbn [bind]. destruct (withinLimit lat lng station); cbn [flat_map app];
    reflexivity.
Qed.

Lemma stationEffects_readable (lat lng station : JsVal) :
  readableStation station = true ->
  exists line,
    stationEffects lat lng station
    = [ app_debug line;
        request_get (stationUrl station) userAgent
          (StationDataCallback station (stationUrl station)) ].
Proof.
  intros Hr. unfold readableStation in Hr. unfold stationEffects, stationDistance.
  destruct (getPath station ["geometry"; "coordinates"]) as [c |]; [| discriminate].
  destruct (getPath station ["properties"; "name"]) as [name |]; [| discriminate].
  apply negb_true_iff in Hr.
  destruct (getIndex_readable c 0 Hr) as [x0 E0].
  destruct (getIndex_readable c 1 Hr) as [x1 E1].
  cbn [cbind]. rewrite E0, E1. cbn [cbind]. eexists. reflexivity.
Qed.

Lemma requestedStations_effects (lat lng : JsVal) (stations : list JsVal) :
  Forall (fun station => readableStation station = true) stations ->
  requestedStations (flat_map (stationEffects lat lng) stations) = stations.
Proof.
  induction 1 as [| station rest Hr _ IH]; [reflexivity |].
  cbn [flat_map]. destruct (stationEffects_readable lat lng _ Hr) as [line ->].
  unfold requestedStations in *. cbn [flat_map app]. now rewrite IH.
Qed.

Lemma dispatch_effects (http : string -> Reply) (lat lng : JsVal)
    (stations : list JsVal) :
  Forall (fun station => readableStation station = true) stations ->
  dispatch http (flat_map (stationEffects lat lng) stations)
  = map (fun station =>
           runCallback (StationDataCallback station (stationUrl station))
             (http (stationUrl station))) stations.
Proof.
  induction 1 as [| station rest Hr _ IH]; [reflexivity |].
  cbn [flat_map map]. destruct (stationEffects_readable lat lng _ Hr) as [line ->].
  unfold dispatch in *. cbn [flat_map app]. now rewrite IH.
Qed.

Lemma Forall_filter_keeps {A : Type} (P : A -> Prop) (f : A -> bool) (l : list A) :
  Forall P l -> Forall P (filter f l).
Proof.
  induction 1 as [| x rest Hx _ IH]; cbn; [constructor |].
  destruct (f x); [constructor |]; assumption.
Qed.

(** The callback of [retrieveObservations] on a successful reply that
    lists readable stations. *)
Lemma retrieveObservations_callback_success (lat lng error response data : JsVal)
    (stations : list JsVal) :
  requestSucceeded error response = Normal true ->
  getProp data "features" = Normal (JArr stations) ->
  Forall (fun station => readableStation station = true) stations ->
  retrieveObservations_callback lat lng error response data
  = (flat_map (stationEffects lat lng) (filter (withinLimit lat lng) stations),
     Normal tt).
Proof.
  intros Hok Hfeatures Hr. unfold retrieveObservations_callback.
  rewrite Hok. cbn [lift bind]. rewrite Hfeatures. cbn [loopItems bind].
  rewrite (forEachStation_readable _ _ _ Hr). reflexivity.
Qed.

(** C2: on a successful stations reply whose features are readable
    stations, the requests issued are for exactly the stations whose
    computed distance to the position is at most [distanceLimit], which is
    100, in the provider's order; each comes with one debug line, and the
    callback completes normally.  On a transport error or a status that is
    not 200 the callback logs one line, requests nothing and completes
    normally. *)
Theorem nearby_stations_filtered (lat lng error response data : JsVal)
    (stations : list JsVal) :
  let task := retrieveObservations_callback lat lng error response data in
  (requestSucceeded error response = Normal true ->
   getProp data "features" = Normal (JArr stations) ->
   Forall (fun station => readableStation station = true) stations ->
   requestedStations (fst task) = filter (withinLimit lat lng) stations
   /\ fst task = flat_map (stationEffects lat lng) (filter (withinLimit lat lng) stations)
   /\ snd task = Normal tt)
  /\ (requestSucceeded error response = Normal false ->
      requestedStations (fst task) = []
      /\ task = ([app_debug (JStr "Error retrieving stations ${JSON.stringify(response)}")],
                 Normal tt))
  /\ (forall station d,
        stationDistance lat lng station = Normal d ->
        withinLimit lat lng station = (d <=? 100)%float).
Proof.
  intros task. subst task. split; [| split].
  - intros Hok Hfeatures Hr.
    rewrite (retrieveObservations_callback_success _ _ _ _ _ _ Hok Hfeatures Hr).
    cbn [fst snd]. repeat split.
    apply requestedStations_effects, Forall_filter_keeps, Hr.
  - intros Hfail. unfold retrieveObservations_callback.
    rewrite Hfail. split; reflexivity.
  - intros station d Hd. unfold withinLimit. rewrite Hd. reflexivity.
Qed.

(** The callback of [retrieveStationData] issues no request: the tasks of a
    cycle end with the observation replies. *)
Lemma retrieveStationData_callback_no_request (station : JsVal) (url : string)
    (error response data : JsVal) :
  requests (fst (retrieveStationData_callback station url error response data)) = [].
Proof.
  unfold retrieveStationData_callback.
  destruct (requestSucceeded error response) as [[] |]; cbn [lift bind];
    [| reflexivity | reflexivity].
  destruct (stationValues station data); reflexivity.
Qed.

(** C8: an observation request that meets a transport error or a status
    that is not 200 makes its callback log one line and complete normally:
    nothing is published and nothing is thrown.  In a cycle, every station
    in range has a task of its own, which is its callback on the reply to
    its own request, so a failed request changes the task of that station
    only and the other stations are handled as they would be. *)
Theorem observation_failure_is_local (http : string -> Reply)
    (app_getSelfPath : string -> JsVal) (lat lng : JsVal) (stations : list JsVal) :
  (forall station url r,
      failed r ->
      retrieveStationData_callback station url (error r) (response r) (data r)
      = ([observationErrorLine url r], Normal tt))
  /\ (let position := app_getSelfPath "navigation.position" in
      let reply := http (stationsUrl lat lng) in
      truthy position = true ->
      getPath position ["value"; "latitude"] = Normal lat ->
      getPath position ["value"; "longitude"] = Normal lng ->
      requestSucceeded (error reply) (response reply) = Normal true ->
      getProp (data reply) "features" = Normal (JArr stations) ->
      Forall (fun station => readableStation station = true) stations ->
      cycle http app_getSelfPath
      = checkAndPublishObservations app_getSelfPath
        :: retrieveObservations_callback lat lng
             (error reply) (response reply) (data reply)
        :: map (fun station =>
                  let r := http (stationUrl station) in
                  retrieveStationData_callback station (stationUrl station)
                    (error r) (response r) (data r))
             (filter (withinLimit lat lng) stations)).
Proof.
  split.
  - intros station url r Hfail. unfold failed in Hfail.
    unfold retrieveStationData_callback. rewrite Hfail. reflexivity.
  - intros position reply Htruthy Hlat Hlng Hok Hfeatures Hr.
    subst position reply.
    assert (Ht0 : checkAndPublishObservations app_getSelfPath
                  = ([request_get (stationsUrl lat lng) userAgent
                        (StationsCallback lat lng)], Normal tt)).
    { unfold checkAndPublishObservations. rewrite Htruthy. cbn [negb].
      rewrite Hlat. cbn [lift bind]. rewrite Hlng. reflexivity. }
    unfold cycle. rewrite Ht0. cbn [fst dispatch flat_map app runCallback].
    rewrite (retrieveObservations_callback_success _ _ _ _ _ _ Hok Hfeatures Hr).
    cbn [fst]. rewrite app_nil_r.
    rewrite dispatch_effects by (apply Forall_filter_keeps, Hr).
    reflexivity.
Qed.

End Stations.

(** ** The loop over an object that is not an array

    [loopItems] cuts the iteration over an object after one more index than
    the object has keys.  The cut changes nothing: when it is reached, one of
    the elements read is [undefined], and the loop throws there. *)

Lemma indexKey_inj (i j : nat) : indexKey i = indexKey j -> i = j.
Proof.
  unfold indexKey. intros H.
  apply (f_equal NilZero.uint_of_string) in H.
  assert (Hn : forall n, Nat.to_uint n <> Decimal.Nil).
  { intros n. rewrite <- (DecimalNat.Unsigned.of_to n) at 1.
    rewrite DecimalNat.Unsigned.to_of. apply DecimalFacts.unorm_nonnil. }
  rewrite !NilZero.usu in H by apply Hn.
  injection H as H. now apply DecimalNat.Unsigned.to_uint_inj.
Qed.

Lemma lookup_defined_in (k : string) (fields : list (string * JsVal)) :
  isUndefined (lookup k fields) = false -> In k (map fst fields).
Proof.
  induction fields as [| [k' v] rest IH]; cbn; [discriminate |].
  destruct (String.eqb_spec k k') as [-> | _]; [now left | right; auto].
Qed.

(** An object has no more defined indices than keys. *)
Lemma defined_indices_bounded (fields : list (string * JsVal)) (l : list nat) :
  NoDup l ->
  (forall j, In j l -> isUndefined (lookup (indexKey j) fields) = false) ->
  length l <= length fields.
Proof.
  intros Hnd Hdef.
  rewrite <- (length_map indexKey l), <- (length_map fst fields).
  apply NoDup_incl_length.
  - apply Finite.Injective_map_NoDup; [| exact Hnd].
    intros i j. apply indexKey_inj.
  - intros k Hk. apply in_map_iff in Hk as (j & <- & Hj).
    apply lookup_defined_in, Hdef, Hj.
Qed.

Section ArrayLike.
Context {RT : Runtime}.

Lemma objectItems_length (fields : list (string * JsVal)) (fuel i : nat) :
  length (objectItems fields fuel i) <= fuel.
Proof.
  revert i. induction fuel as [| fuel IH]; intros i; cbn; [lia |].
  destruct (_ <? _)%float; cbn; [specialize (IH (S i)) |]; lia.
Qed.

Lemma objectItems_full (fields : list (string * JsVal)) (fuel i : nat) :
  length (objectItems fields fuel i) = fuel ->
  objectItems fields fuel i = map (fun j => lookup (indexKey j) fields) (seq i fuel).
Proof.
  revert i. induction fuel as [| fuel IH]; intros i; cbn; [reflexivity |].
  destruct (_ <? _)%float; cbn; [| discriminate].
  intros H. injection H as H. now rewrite IH.
Qed.

Lemma objectItems_more_fuel (fields : list (string * JsVal)) (fuel extra i : nat) :
  exists rest,
    objectItems fields (fuel + extra) i = (objectItems fields fuel i ++ rest)%list
    /\ (length (objectItems fields fuel i) < fuel -> rest = []).
Proof.
  revert i. induction fuel as [| fuel IH]; intros i; cbn.
  - eexists. split; [reflexivity | lia].
  - destruct (_ <? _)%float; cbn.
    + destruct (IH (S i)) as (rest & -> & Hrest). exists rest. split; [reflexivity |].
      intros H. apply Hrest. lia.
    + exists []. split; reflexivity.
Qed.

Lemma objectItems_undefined (fields : list (string * JsVal)) :
  length (objectItems fields (S (length fields)) 0) = S (length fields) ->
  exists pre rest,
    objectItems fields (S (length fields)) 0 = (pre ++ JUndefined :: rest)%list.
Proof.
  intros Hfull. rewrite (objectItems_full _ _ _ Hfull).
  destruct (existsb (fun j => isUndefined (lookup (indexKey j) fields))
              (seq 0 (S (length fields)))) eqn:E.
  - apply existsb_exists in E as (j & Hj & Hu).
    apply in_split, in_map_iff. exists j. split; [| exact Hj].
    destruct (lookup (indexKey j) fields); try discriminate. reflexivity.
  - exfalso.
    assert (H : length (seq 0 (S (length fields))) <= length fields).
    { apply defined_indices_bounded; [apply seq_NoDup |].
      intros j Hj.
      destruct (isUndefined (lookup (indexKey j) fields)) eqn:Eu; [| reflexivity].
      rewrite <- E. symmetry. apply existsb_exists. now exists j. }
    rewrite length_seq in H. lia.
Qed.

(** The loop throws on the first [undefined] it visits. *)
Lemma forEachStation_stops (lat lng : JsVal) (pre rest : list JsVal) :
  forEachStation lat lng (pre ++ JUndefined :: rest)%list
  = forEachStation lat lng (pre ++ [JUndefined])%list.
Proof.
  induction pre as [| x pre IH]; cbn [app forEachStation].
  - reflexivity.
  - unfold bind. destruct (visitStation lat lng x) as [es [[] | e]]; [| reflexivity].
    now rewrite IH.
Qed.

(** More fuel gives the same run of the loop. *)
Lemma forEachStation_objectItems_fuel (lat lng : JsVal)
    (fields : list (string * JsVal)) (extra : nat) :
  forEachStation lat lng (objectItems fields (S (length fields) + extra) 0)
  = forEachStation lat lng (objectItems fields (S (length fields)) 0).
Proof.
  destruct (objectItems_more_fuel fields (S (length fields)) extra 0)
    as (more & Hmore & Hcut).
  rewrite Hmore.
  destruct (Nat.eq_dec (length (objectItems fields (S (length fields)) 0))
              (S (length fields))) as [Hfull | Hshort].
  - destruct (objectItems_undefined fields Hfull) as (pre & rest & ->).
    rewrite <- List.app_assoc. cbn [app].
    now rewrite (forEachStation_stops lat lng pre (rest ++ more)),
      (forEachStation_stops lat lng pre rest).
  - rewrite Hcut, List.app_nil_r; [reflexivity |].
    pose proof (objectItems_length fields (S (length fields)) 0). lia.
Qed.

End ArrayLike.

Lemma nearby_stations_filtered_witness :
  requestedStations
    (fst (retrieveObservations_callback (RT := sampleRuntime)
            (JNum 42.35%float) (JNum (-71.05)%float)
            JNull (JObj [("statusCode", JNum 200%float)])
            (JObj [("features", JArr [KBOS; KLGA; KPVD])])))
  = [KBOS; KPVD]
  /\ retrieveObservations_callback (RT := sampleRuntime)
       (JNum 42.35%float) (JNum (-71.05)%float)
       (error transportError) (response transportError) (data transportError)
     = ([app_debug (JStr "Error retrieving stations ${JSON.stringify(response)}")],
        Normal tt).
Proof.
  split.
  - destruct (nearby_stations_filtered (RT := sampleRuntime)
                (JNum 42.35%float) (JNum (-71.05)%float)
                JNull (JObj [("statusCode", JNum 200%float)])
                (JObj [("features", JArr [KBOS; KLGA; KPVD])])
                [KBOS; KLGA; KPVD]) as [Hsuccess _].
    destruct (Hsuccess eq_refl eq_refl) as [Hrequested _].
    + repeat constructor.
    + exact Hrequested.
  - destruct (nearby_stations_filtered (RT := sampleRuntime)
                (JNum 42.35%float) (JNum (-71.05)%float)
                (error transportError) (response transportError) (data transportError)
                []) as (_ & Hfailure & _).
    destruct (Hfailure eq_refl) as [_ Htask]. exact Htask.
Defined.

Lemma observation_failure_is_local_witness :
  retrieveStationData_callback (RT := sampleRuntime) KPVD (stationUrl (RT := sampleRuntime) KPVD)
    JNull (JObj [("statusCode", JNum 503%float)]) JUndefined
  = ([app_debug (JStr "Error retrieving https://api.weather.gov/stations/KPVD/observations/latest: {}")],
     Normal tt)
  /\ cycle (RT := sampleRuntime) sampleHttp samplePosition
     = [ checkAndPublishObservations (RT := sampleRuntime) samplePosition;
         retrieveObservations_callback (RT := sampleRuntime)
           (JNum 42.35%float) (JNum (-71.05)%float)
           JNull (JObj [("statusCode", JNum 200%float)])
           (JObj [("features", JArr [KBOS; KLGA; KPVD])]);
         retrieveStationData_callback (RT := sampleRuntime) KBOS (stationUrl (RT := sampleRuntime) KBOS)
           JNull (JObj [("statusCode", JNum 200%float)]) bostonObservation;
         ([app_debug (JStr "Error retrieving https://api.weather.gov/stations/KPVD/observations/latest: {}")],
          Normal tt) ].
Proof.
  destruct (observation_failure_is_local (RT := sampleRuntime) sampleHttp
              samplePosition (JNum 42.35%float) (JNum (-71.05)%float)
              [KBOS; KLGA; KPVD]) as [Hcallback Hcycle].
  split.
  - exact (Hcallback KPVD (stationUrl (RT := sampleRuntime) KPVD) (httpStatus 503%float) eq_refl).
  - rewrite Hcycle; try reflexivity. repeat constructor.
Defined.

Lemma position_without_value_throws_witness :
  checkAndPublishObservations (RT := sampleRuntime)
    (fun _ => JObj [("timestamp", JStr "2022-05-01T12:00:00.000Z")])
  = ([], Throw TypeError).
Proof.
  apply (proj2 (position_without_value_throws (RT := sampleRuntime))); reflexivity.
Defined.

(** The scenario of the specification: of three stations, two are in range;
    the observation of the first is published, with 18 km/h as 5 m/s, and the
    failed request for the second leaves a debug line. *)
Example sample_cycle :
  flat_map (fun task => published (fst task))
    (cycle (RT := sampleRuntime) sampleHttp samplePosition)
  = published
      (fst (retrieveStationData_callback (RT := sampleRuntime) KBOS (stationUrl (RT := sampleRuntime) KBOS)
              JNull (JObj [("statusCode", JNum 200%float)]) bostonObservation))
  /\ flat_map (fun task => requests (fst task))
       (cycle (RT := sampleRuntime) sampleHttp samplePosition)
     = [ "https://api.weather.gov/points/42.35,-71.05/stations";
         "https://api.weather.gov/stations/KBOS/observations/latest";
         "https://api.weather.gov/stations/KPVD/observations/latest" ]
  /\ kilometersPerHourToMetersPerSecond (RT := sampleRuntime) (JNum 18%float)
     = JNum 5%float
  /\ Forall (fun task => snd task = Normal tt)
       (cycle (RT := sampleRuntime) sampleHttp samplePosition).
Proof.
  repeat split; repeat constructor.
Qed.

(** * Further properties *)

(** ** Floating-point facts about [NaN] *)

Lemma is_nan_Prim2SF (x : float) : is_nan x = true -> Prim2SF x = S754_nan.
Proof.
  unfold is_nan. rewrite FloatAxioms.eqb_spec. unfold SFeqb, SFcompare.
  destruct (Prim2SF x) as [s | s | | s m e]; try reflexivity.
  - destruct s; discriminate.
  - destruct s; discriminate.
  - rewrite Z.compare_refl, Pos.compare_cont_refl. destruct s; discriminate.
Qed.

Lemma Prim2SF_nan (x : float) : Prim2SF x = S754_nan -> x = nan.
Proof. intros H. rewrite <- (SF2Prim_Prim2SF x), H. reflexivity. Qed.

Lemma is_nan_eq (x : float) : is_nan x = true -> x = nan.
Proof. intros H. apply Prim2SF_nan, is_nan_Prim2SF, H. Qed.

Lemma leb_nan_l (y : float) : (nan <=? y)%float = false.
Proof. rewrite FloatAxioms.leb_spec. reflexivity. Qed.

Lemma ltb_nan_r (y : float) : (y <? nan)%float = false.
Proof.
  rewrite FloatAxioms.ltb_spec. unfold SFltb, SFcompare.
  change (Prim2SF nan) with S754_nan. destruct (Prim2SF y); reflexivity.
Qed.

Lemma eqb_nan_l (y : float) : (nan =? y)%float = false.
Proof. rewrite FloatAxioms.eqb_spec. reflexivity. Qed.

Lemma mul_nan_l (y : float) : (nan * y)%float = nan.
Proof. apply Prim2SF_nan. rewrite FloatAxioms.mul_spec. reflexivity. Qed.

Lemma mul_nan_r (y : float) : (y * nan)%float = nan.
Proof.
  apply Prim2SF_nan. rewrite FloatAxioms.mul_spec. change (Prim2SF nan) with S754_nan.
  unfold SF64mul, SFmul. destruct (Prim2SF y); reflexivity.
Qed.

Lemma add_nan_l (y : float) : (nan + y)%float = nan.
Proof. apply Prim2SF_nan. rewrite FloatAxioms.add_spec. reflexivity. Qed.

Lemma add_nan_r (y : float) : (y + nan)%float = nan.
Proof.
  apply Prim2SF_nan. rewrite FloatAxioms.add_spec. change (Prim2SF nan) with S754_nan.
  unfold SF64add, SFadd. destruct (Prim2SF y); reflexivity.
Qed.

Lemma sub_nan_l (y : float) : (nan - y)%float = nan.
Proof. apply Prim2SF_nan. rewrite FloatAxioms.sub_spec. reflexivity. Qed.

Lemma div_nan_l (y : float) : (nan / y)%float = nan.
Proof. apply Prim2SF_nan. rewrite FloatAxioms.div_spec. reflexivity. Qed.

(** ** Every outcome of the observation callback *)

Section Outcomes.
Context {RT : Runtime}.
Local Open Scope js_scope.

Ltac step_read :=
  match goal with
  | |- context [cbind ?c _] =>
      let E := fresh "E" in destruct c eqn:E; cbn [cbind]
  end.

Lemma only_TypeError (e : JsError) : e = TypeError.
Proof. now destruct e. Qed.

(** When [values] is built, every read succeeded and the identifier is a
    string. *)
Lemma stationValues_inv (station data : JsVal) (values : list JsVal) :
  stationValues station data = Normal values ->
  exists (o : Observation) (id : string) (name : JsVal),
    readsStation station id name
    /\ readsObservation data o
    /\ values = updateValues id name o.
Proof.
  unfold stationValues.
  repeat (step_read; [| discriminate]).
  intros H. injection H as <-.
  match goal with E : toLowerCase ?v = Normal _ |- _ =>
    destruct v; try discriminate; cbn in E; injection E as <- end.
  eexists {| timestamp := _ |}, _, _.
  unfold readsStation, readsObservation.
  cbn [timestamp textDescription temperature windDirection windSpeed windGust
       barometricPressure longitude latitude].
  repeat split; try eassumption;
    match goal with E : getPath data ["geometry"; "coordinates"] = _ |- _ =>
      rewrite E; cbn [cbind]; eassumption end.
Qed.

(** X1: the callback of [retrieveStationData] ends in one of three ways,
    whatever it is given.  It publishes one delta, which then holds exactly
    nine values; or, on a failed request, it logs one line; or it throws a
    [TypeError], and then it has published and logged nothing. *)
Theorem observation_callback_outcomes (station : JsVal) (url : string)
    (error response data : JsVal) :
  let task := retrieveStationData_callback station url error response data in
  (exists values,
      task = ([app_handleMessage "signalk-noaa-observations" (deltaOf values)], Normal tt)
      /\ length values = 9
      /\ requestSucceeded error response = Normal true
      /\ stationValues station data = Normal values)
  \/ (task = ([app_debug (JStr ("Error retrieving " ++ url ++ ": "
                                ++ ToString (JSON_stringify response)))], Normal tt)
      /\ requestSucceeded error response = Normal false)
  \/ (task = ([], Throw TypeError)
      /\ (requestSucceeded error response = Throw TypeError
          \/ (requestSucceeded error response = Normal true
              /\ stationValues station data = Throw TypeError))).
Proof.
  intros task. subst task. unfold retrieveStationData_callback.
  destruct (requestSucceeded error response) as [[] | e] eqn:Hok; cbn [lift bind].
  - destruct (stationValues station data) as [values | e] eqn:Hvalues.
    + left. exists values. repeat split.
      apply stationValues_inv in Hvalues as (o & id & name & _ & _ & ->).
      reflexivity.
    + right. right. rewrite (only_TypeError e). split; [reflexivity |]. right.
      split; reflexivity.
  - right. left. split; reflexivity.
  - right. right. rewrite (only_TypeError e). split; [reflexivity | now left].
Qed.

(** X2: the array [values] is built if and only if the station's identifier
    is a string and every field the callback reads can be read; it is then
    the nine entries made of those fields.  In every other case
    [stationValues] throws. *)
Theorem stationValues_iff (station data : JsVal) (values : list JsVal) :
  (stationValues station data = Normal values
   <-> exists (o : Observation) (id : string) (name : JsVal),
         readsStation station id name
         /\ readsObservation data o
         /\ values = updateValues id name o)
  /\ (stationValues station data = Throw TypeError
      <-> forall (o : Observation) (id : string) (name : JsVal),
            readsStation station id name -> readsObservation data o -> False).
Proof.
  split; split.
  - apply stationValues_inv.
  - intros (o & id & name & Hstation & Hdata & ->).
    apply stationValues_reads; assumption.
  - intros Hthrow o id name Hstation Hdata.
    rewrite (stationValues_reads _ _ _ _ _ Hstation Hdata) in Hthrow. discriminate.
  - intros Hnone. destruct (stationValues station data) as [built | e] eqn:Hvalues.
    + apply stationValues_inv in Hvalues as (o & id & name & Hstation & Hdata & _).
      destruct (Hnone o id name Hstation Hdata).
    + now rewrite (only_TypeError e).
Qed.

(** X3: each converter returns [null] exactly when its argument is [null],
    and never [undefined], for every JavaScript value.  A missing value,
    [undefined], becomes the number [NaN]; a string given to
    [celsiusToKelvin] is not converted but concatenated with the text of
    273.15. *)
Theorem converters_null_iff (v : JsVal) :
  isNull (kilometersPerHourToMetersPerSecond v) = isNull v
  /\ isNull (degreesToRadians v) = isNull v
  /\ isNull (celsiusToKelvin v) = isNull v
  /\ isUndefined (kilometersPerHourToMetersPerSecond v) = false
  /\ isUndefined (degreesToRadians v) = false
  /\ isUndefined (celsiusToKelvin v) = false
  /\ kilometersPerHourToMetersPerSecond JUndefined = JNum nan
  /\ degreesToRadians JUndefined = JNum nan
  /\ celsiusToKelvin JUndefined = JNum nan
  /\ (forall s, celsiusToKelvin (JStr s) = JStr (s ++ NumberToString 273.15%float)).
Proof.
  repeat split; try reflexivity; destruct v; reflexivity.
Qed.

(** X4: [checkAndPublishObservations] does one of three things.  On a falsy
    position it logs one line.  On a truthy position whose [value] is
    [undefined] or [null] it throws a [TypeError].  On any other position it
    issues exactly one request, for the stations around the latitude and
    longitude it read, even when those are missing from [value]. *)
Theorem timer_task_outcomes (app_getSelfPath : string -> JsVal) :
  let position := app_getSelfPath "navigation.position" in
  let task := checkAndPublishObservations app_getSelfPath in
  (truthy position = false
   /\ task = ([app_debug (JSON_stringify position)], Normal tt))
  \/ (truthy position = true
      /\ (exists value, getProp position "value" = Normal value /\ isNullish value = true)
      /\ task = ([], Throw TypeError))
  \/ (truthy position = true
      /\ exists value lat lng,
           getProp position "value" = Normal value
           /\ isNullish value = false
           /\ getProp value "latitude" = Normal lat
           /\ getProp value "longitude" = Normal lng
           /\ task = ([request_get (stationsUrl lat lng) userAgent
                         (StationsCallback lat lng)], Normal tt)).
Proof.
  intros position task. subst task. unfold checkAndPublishObservations.
  fold position. destruct (truthy position) eqn:Htruthy; cbn [negb].
  - right.
    assert (Hvalue : exists value, getProp position "value" = Normal value).
    { destruct position; try discriminate; eexists; reflexivity. }
    destruct Hvalue as [value Hvalue].
    cbn [getPath cbind]. rewrite Hvalue. cbn [cbind].
    destruct (isNullish value) eqn:Hnull.
    + left. split; [reflexivity |]. split; [now exists value |].
      destruct value; try discriminate; reflexivity.
    + right. split; [reflexivity |].
      assert (Hlat : exists lat, getProp value "latitude" = Normal lat)
        by (destruct value; try discriminate; eexists; reflexivity).
      assert (Hlng : exists lng, getProp value "longitude" = Normal lng)
        by (destruct value; try discriminate; eexists; reflexivity).
      destruct Hlat as [lat Hlat], Hlng as [lng Hlng].
      exists value, lat, lng. rewrite Hlat, Hlng. repeat split. exact Hnull.
  - left. split; reflexivity.
Qed.

End Outcomes.

(** ** The loop over any array of stations *)

Section Loop.
Context {RT : Runtime}.
Local Open Scope js_scope.

(** The body of the loop either completes, with the effects of a station in
    range or none, or throws before any effect. *)
Lemma visitStation_cases (lat lng station : JsVal) :
  (visitStation lat lng station
   = (if withinLimit lat lng station then stationEffects lat lng station else [],
      Normal tt)
   /\ (withinLimit lat lng station = true ->
       exists line,
         stationEffects lat lng station
         = [ app_debug line;
             request_get (stationUrl station) userAgent
               (StationDataCallback station (stationUrl station)) ]))
  \/ visitStation lat lng station = ([], Throw TypeError).
Proof.
  unfold visitStation, withinLimit, stationEffects, stationDistance.
  destruct (getPath station ["geometry"; "coordinates"]) as [c | e] eqn:Ec;
    cbn [lift bind cbind]; [| right; now destruct e].
  destruct (getIndex c 0) as [x0 | e] eqn:E0;
    cbn [lift bind cbind]; [| right; now destruct e].
  destruct (getIndex c 1) as [x1 | e] eqn:E1;
    cbn [lift bind cbind app]; [| right; now destruct e].
  destruct (calculateDistance lat lng x1 x0 <=? distanceLimit)%float.
  - destruct (getPath station ["properties"; "name"]) as [name | e] eqn:En;
      cbn [lift bind cbind app]; [| right; now destruct e].
    assert (Hid : getProp station "id"
                  = Normal (lookup "id" match station with
                                        | JObj fields => fields
                                        | _ => []
                                        end)).
    { destruct station; try discriminate; reflexivity. }
    unfold retrieveStationData. rewrite Hid. cbn [lift bind emit app].
    left. split; [reflexivity |]. intros _. eexists. reflexivity.
  - left. split; [reflexivity | discriminate].
Qed.

(** The effects of the stations a run of the loop visited. *)
Lemma visited_effects (lat lng : JsVal) (visited : list JsVal) :
  Forall (fun station =>
            withinLimit lat lng station = true ->
            exists line,
              stationEffects lat lng station
              = [ app_debug line;
                  request_get (stationUrl station) userAgent
                    (StationDataCallback station (stationUrl station)) ]) visited ->
  let effects := flat_map (stationEffects lat lng) (filter (withinLimit lat lng) visited) in
  requestedStations effects = filter (withinLimit lat lng) visited
  /\ Forall (fun e => loopEffect e = true) effects
  /\ Forall hasUserAgent effects.
Proof.
  cbv zeta. induction 1 as [| station visited Hshape _ IH]; cbn [filter flat_map].
  - repeat split; constructor.
  - destruct (withinLimit lat lng station) eqn:Hin; [| exact IH].
    destruct (Hshape eq_refl) as [line Hline]. destruct IH as (IHr & IHl & IHu).
    cbn [flat_map]. rewrite Hline. unfold requestedStations in *.
    cbn [flat_map app]. rewrite IHr. repeat split.
    + repeat constructor. exact IHl.
    + repeat constructor. exact IHu.
Qed.

(** What a run of the loop does, on any list. *)
Lemma forEachStation_shape (lat lng : JsVal) (stations : list JsVal) :
  exists visited rest,
    stations = (visited ++ rest)%list
    /\ Forall (fun station =>
                 withinLimit lat lng station = true ->
                 exists line,
                   stationEffects lat lng station
                   = [ app_debug line;
                       request_get (stationUrl station) userAgent
                         (StationDataCallback station (stationUrl station)) ]) visited
    /\ fst (forEachStation lat lng stations)
       = flat_map (stationEffects lat lng) (filter (withinLimit lat lng) visited)
    /\ ((snd (forEachStation lat lng stations) = Normal tt /\ rest = [])
        \/ (snd (forEachStation lat lng stations) = Throw TypeError
            /\ exists bad rest',
                 rest = bad :: rest'
                 /\ visitStation lat lng bad = ([], Throw TypeError))).
Proof.
  induction stations as [| station stations IH].
  - exists [], []. repeat split; [constructor |]. left. split; reflexivity.
  - cbn [forEachStation].
    destruct (visitStation_cases lat lng station) as [[Hvisit Hshape] | Hthrow].
    + destruct IH as (visited & rest & -> & Hshapes & Heffects & Hend).
      exists (station :: visited), rest. rewrite Hvisit. unfold bind.
      destruct (forEachStation lat lng (visited ++ rest)) as [es c] eqn:Hrun.
      cbn [fst snd] in *. subst es. cbn [filter].
      split; [reflexivity |]. split; [constructor; assumption |].
      split; [| exact Hend].
      destruct (withinLimit lat lng station); reflexivity.
    + exists [], (station :: stations). rewrite Hthrow.
      repeat split; [constructor |].
      right. split; [reflexivity |]. now exists station, stations.
Qed.

(** X5: on any array, the loop visits the stations in order and stops at
    the first one it cannot read: the observations requested are exactly
    those of the stations in range among the ones visited, each with one
    debug line; the loop completes normally only if it visited the whole
    array, and otherwise throws a [TypeError] at a station for which it did
    nothing, leaving the stations after it unvisited. *)
Theorem loop_stops_at_unreadable_station (lat lng : JsVal) (stations : list JsVal) :
  let run := forEachStation lat lng stations in
  exists visited rest,
    stations = (visited ++ rest)%list
    /\ fst run = flat_map (stationEffects lat lng) (filter (withinLimit lat lng) visited)
    /\ requestedStations (fst run) = filter (withinLimit lat lng) visited
    /\ ((snd run = Normal tt /\ rest = [])
        \/ (snd run = Throw TypeError
            /\ exists bad rest',
                 rest = bad :: rest'
                 /\ visitStation lat lng bad = ([], Throw TypeError))).
Proof.
  cbv zeta.
  destruct (forEachStation_shape lat lng stations)
    as (visited & rest & Hsplit & Hshapes & Heffects & Hend).
  exists visited, rest. repeat split; try assumption.
  rewrite Heffects. apply (visited_effects lat lng visited Hshapes).
Qed.

(** A station at a distance that is [NaN] is passed over. *)
Lemma visitStation_NaN (lat lng station : JsVal) (d : float) :
  stationDistance lat lng station = Normal d ->
  is_nan d = true ->
  visitStation lat lng station = ([], Normal tt).
Proof.
  intros Hd Hnan. unfold visitStation. unfold stationDistance in Hd.
  destruct (getPath station ["geometry"; "coordinates"]) as [c |];
    cbn [lift bind cbind] in *; [| discriminate].
  destruct (getIndex c 0) as [x0 |]; cbn [lift bind cbind] in *; [| discriminate].
  destruct (getIndex c 1) as [x1 |]; cbn [lift bind cbind] in *; [| discriminate].
  injection Hd as Hd. rewrite Hd, (is_nan_eq d Hnan), leb_nan_l. reflexivity.
Qed.

(** X6: a station whose computed distance is [NaN] is not in range, and
    the loop passes over it without a request, a log line or an error. *)
Theorem NaN_distance_skips_station (lat lng station : JsVal) (d : float) :
  stationDistance lat lng station = Normal d ->
  is_nan d = true ->
  withinLimit lat lng station = false
  /\ visitStation lat lng station = ([], Normal tt).
Proof.
  intros Hd Hnan. split.
  - unfold withinLimit. rewrite Hd, (is_nan_eq d Hnan). apply leb_nan_l.
  - exact (visitStation_NaN lat lng station d Hd Hnan).
Qed.

(** A value that is not a number reads as [NaN] and is loosely equal to no
    number. *)
Lemma notANumber_reads (v : JsVal) :
  notANumber v = true ->
  ToNumber v = nan /\ forall b, looseEq v (JNum b) = false.
Proof.
  destruct v; try discriminate; cbn [notANumber].
  - intros _. split; [reflexivity | intros b; reflexivity].
  - intros Hnan. rewrite (is_nan_eq x Hnan). split; [reflexivity |].
    intros b. apply eqb_nan_l.
Qed.

(** The distance from a position that is not a number. *)
Lemma calculateDistance_NaN (lat lng : JsVal) (stationLat stationLng : float) :
  Math_sin nan = nan ->
  Math_cos nan = nan ->
  Math_acos nan = nan ->
  notANumber lat || notANumber lng = true ->
  calculateDistance lat lng (JNum stationLat) (JNum stationLng) = nan.
Proof.
  intros Hsin Hcos Hacos Hnot.
  assert (Hlaw : lawOfCosines lat lng (JNum stationLat) (JNum stationLng) = nan).
  { unfold lawOfCosines. apply orb_true_iff in Hnot as [H | H];
      apply notANumber_reads in H as [-> _].
    - rewrite mul_nan_r, div_nan_l, Hsin, mul_nan_l. apply add_nan_l.
    - rewrite sub_nan_l, mul_nan_r, div_nan_l, Hcos, mul_nan_r. apply add_nan_r. }
  assert (Hguard : looseEq lat (JNum stationLat) && looseEq lng (JNum stationLng) = false).
  { apply orb_true_iff in Hnot as [H | H]; apply notANumber_reads in H as [_ H];
      rewrite H; [reflexivity | apply andb_false_r]. }
  unfold calculateDistance. rewrite Hguard, Hlaw, ltb_nan_r, Hacos. reflexivity.
Qed.

(** The loop from a position that is not a number. *)
Lemma forEachStation_NaN (lat lng : JsVal) (stations : list JsVal) :
  Math_sin nan = nan ->
  Math_cos nan = nan ->
  Math_acos nan = nan ->
  notANumber lat || notANumber lng = true ->
  Forall (fun station => numericCoordinates station = true) stations ->
  forEachStation lat lng stations = ([], Normal tt).
Proof.
  intros Hsin Hcos Hacos Hnot.
  induction 1 as [| station rest Hstation _ IH]; [reflexivity |].
  cbn [forEachStation].
  assert (Hvisit : visitStation lat lng station = ([], Normal tt)).
  { unfold numericCoordinates in Hstation.
    destruct (getPath station ["geometry"; "coordinates"])
      as [[| | | | | [| [| | | stationLng | | |] [| [| | | stationLat | | |] more]] |] |]
      eqn:Ec; try discriminate.
    apply (visitStation_NaN lat lng station nan); [| reflexivity].
    unfold stationDistance. rewrite Ec. cbn [cbind getIndex nth].
    now rewrite (calculateDistance_NaN lat lng stationLat stationLng Hsin Hcos Hacos Hnot). }
  rewrite Hvisit, IH. reflexivity.
Qed.

(** X7: when the latitude or the longitude of the position is [undefined]
    or [NaN], and the [Math] functions return [NaN] on [NaN], a successful
    stations reply whose stations have numeric coordinates leads to nothing:
    no request, no log line and no error. *)
Theorem position_without_number_fetches_nothing
    (lat lng error response data : JsVal) (stations : list JsVal) :
  Math_sin nan = nan ->
  Math_cos nan = nan ->
  Math_acos nan = nan ->
  notANumber lat || notANumber lng = true ->
  requestSucceeded error response = Normal true ->
  getProp data "features" = Normal (JArr stations) ->
  Forall (fun station => numericCoordinates station = true) stations ->
  retrieveObservations_callback lat lng error response data = ([], Normal tt).
Proof.
  intros Hsin Hcos Hacos Hnot Hok Hfeatures Hnumeric.
  unfold retrieveObservations_callback. rewrite Hok. cbn [lift bind].
  rewrite Hfeatures. cbn [loopItems bind].
  rewrite (forEachStation_NaN lat lng stations Hsin Hcos Hacos Hnot Hnumeric).
  reflexivity.
Qed.

(** X8: when the law of cosines evaluates above 1 for two points that are
    not equal, the clamp makes the distance exactly 0, provided
    [Math.acos 1] is 0. *)
Theorem clamp_gives_zero (lat1 lon1 lat2 lon2 : JsVal) :
  Math_acos 1 = 0%float ->
  looseEq lat1 lat2 && looseEq lon1 lon2 = false ->
  (1 <? lawOfCosines lat1 lon1 lat2 lon2)%float = true ->
  calculateDistance lat1 lon1 lat2 lon2 = 0%float.
Proof.
  intros Hacos Hguard Hover. unfold calculateDistance.
  rewrite Hguard, Hover, Hacos. reflexivity.
Qed.

End Loop.

(** ** Invariants of a cycle *)

Section Cycle.
Context {RT : Runtime}.
Local Open Scope js_scope.

(** The effects of the timer task. *)
Lemma checkAndPublishObservations_effects (app_getSelfPath : string -> JsVal) :
  fst (checkAndPublishObservations app_getSelfPath) = []
  \/ (exists line, fst (checkAndPublishObservations app_getSelfPath) = [app_debug line])
  \/ (exists lat lng,
        fst (checkAndPublishObservations app_getSelfPath)
        = [request_get (stationsUrl lat lng) userAgent (StationsCallback lat lng)]).
Proof.
  unfold checkAndPublishObservations.
  destruct (truthy (app_getSelfPath "navigation.position")); cbn [negb].
  - destruct (getPath (app_getSelfPath "navigation.position") ["value"; "latitude"])
      as [lat |]; cbn [lift bind]; [| now left].
    destruct (getPath (app_getSelfPath "navigation.position") ["value"; "longitude"])
      as [lng |]; cbn [lift bind]; [| now left].
    right. right. now exists lat, lng.
  - right. left. eexists. reflexivity.
Qed.

(** The effects of the callback of [retrieveObservations]. *)
Lemma retrieveObservations_callback_effects (lat lng error response data : JsVal) :
  Forall (fun e => loopEffect e = true)
    (fst (retrieveObservations_callback lat lng error response data))
  /\ Forall hasUserAgent
       (fst (retrieveObservations_callback lat lng error response data)).
Proof.
  unfold retrieveObservations_callback.
  destruct (requestSucceeded error response) as [[] |]; cbn [lift bind];
    [| repeat constructor | repeat constructor].
  destruct (getProp data "features") as [features |]; cbn [lift bind];
    [| repeat constructor].
  destruct (loopItems features) as [items |]; cbn [lift bind];
    [| repeat constructor].
  destruct (forEachStation_shape lat lng items)
    as (visited & rest & _ & Hshapes & Heffects & _).
  destruct (forEachStation lat lng items) as [es c]. cbn [fst] in *. subst es.
  cbn [app fst].
  destruct (visited_effects lat lng visited Hshapes) as (_ & Hloop & Hagent).
  split; assumption.
Qed.

(** The effects of the callback of [retrieveStationData]. *)
Lemma retrieveStationData_callback_effects (station : JsVal) (url : string)
    (error response data : JsVal) :
  fst (retrieveStationData_callback station url error response data) = []
  \/ (exists line,
        fst (retrieveStationData_callback station url error response data)
        = [app_debug line])
  \/ (exists delta,
        fst (retrieveStationData_callback station url error response data)
        = [app_handleMessage "signalk-noaa-observations" delta]).
Proof.
  unfold retrieveStationData_callback.
  destruct (requestSucceeded error response) as [[] |]; cbn [lift bind].
  - destruct (stationValues station data); cbn [lift bind]; [| now left].
    right. right. eexists. reflexivity.
  - right. left. eexists. reflexivity.
  - now left.
Qed.

Lemma runCallback_userAgent (cb : Callback) (r : Reply) :
  Forall hasUserAgent (fst (runCallback cb r)).
Proof.
  destruct cb as [lat lng | station url]; cbn [runCallback].
  - apply retrieveObservations_callback_effects.
  - destruct (retrieveStationData_callback_effects station url
                (error r) (response r) (data r)) as [-> | [[line ->] | [delta ->]]];
      repeat constructor.
Qed.

Lemma dispatch_userAgent (http : string -> Reply) (effects : list Effect) :
  Forall (fun task => Forall hasUserAgent (fst task)) (dispatch http effects).
Proof.
  unfold dispatch. induction effects as [| e effects IH]; cbn [flat_map].
  - constructor.
  - destruct e; cbn [app]; try exact IH.
    constructor; [apply runCallback_userAgent | exact IH].
Qed.

(** X9: every request issued in a cycle, whatever the position and the
    replies are, carries the plugin's [User-Agent]. *)
Theorem cycle_requests_carry_userAgent (http : string -> Reply)
    (app_getSelfPath : string -> JsVal) :
  Forall (fun task => Forall hasUserAgent (fst task)) (cycle http app_getSelfPath)
  /\ userAgent = "Signal K NOAA Observations Plugin".
Proof.
  split; [| reflexivity]. unfold cycle. constructor.
  - destruct (checkAndPublishObservations_effects app_getSelfPath)
      as [-> | [[line ->] | (lat & lng & ->)]]; repeat constructor.
  - apply Forall_app. split; [apply dispatch_userAgent |].
    apply Forall_flat_map, Forall_forall. intros task _. apply dispatch_userAgent.
Qed.

(** The tasks of the requests of the loop publish at most one delta for each
    station requested. *)
Lemma dispatch_loop_published (http : string -> Reply) (effects : list Effect) :
  Forall (fun e => loopEffect e = true) effects ->
  length (flat_map (fun task => published (fst task)) (dispatch http effects))
  <= length (requestedStations effects).
Proof.
  unfold dispatch, requestedStations.
  induction 1 as [| e effects He _ IH]; cbn [flat_map]; [constructor |].
  destruct e as [line | id delta | url header [lat lng | station url']];
    try discriminate; cbn [app flat_map]; [exact IH |].
  rewrite length_app. cbn [runCallback length].
  destruct (retrieveStationData_callback_effects station url'
              (error (http url)) (response (http url)) (data (http url)))
    as [-> | [[line ->] | [delta ->]]]; cbn [published flat_map app length]; lia.
Qed.

Lemma published_loop (effects : list Effect) :
  Forall (fun e => loopEffect e = true) effects -> published effects = [].
Proof.
  unfold published. induction 1 as [| e effects He _ IH]; [reflexivity |].
  cbn [flat_map]. destruct e; try discriminate; cbn [app]; exact IH.
Qed.

(** X10: only the callbacks of observation requests publish.  The timer
    task and the callback of the stations request never publish, whatever
    they are given, and a cycle publishes at most one delta for each
    observation it requested. *)
Theorem cycle_publishes_per_request (http : string -> Reply)
    (app_getSelfPath : string -> JsVal) :
  published (fst (checkAndPublishObservations app_getSelfPath)) = []
  /\ (forall lat lng error response data,
        published (fst (retrieveObservations_callback lat lng error response data)) = [])
  /\ length (flat_map (fun task => published (fst task)) (cycle http app_getSelfPath))
     <= length (flat_map (fun task => requestedStations (fst task))
                  (cycle http app_getSelfPath)).
Proof.
  split; [| split].
  - destruct (checkAndPublishObservations_effects app_getSelfPath)
      as [-> | [[line ->] | (lat & lng & ->)]]; reflexivity.
  - intros. apply published_loop, retrieveObservations_callback_effects.
  - unfold cycle. cbv zeta.
    destruct (checkAndPublishObservations_effects app_getSelfPath)
      as [H | [[line H] | (lat & lng & H)]];
      cbn [flat_map]; rewrite !H; cbn [dispatch flat_map app fst runCallback].
    + cbn. lia.
    + cbn. lia.
    + rewrite !List.app_nil_r.
      pose proof (retrieveObservations_callback_effects lat lng
                    (error (http (stationsUrl lat lng)))
                    (response (http (stationsUrl lat lng)))
                    (data (http (stationsUrl lat lng)))) as [Hloop _].
      pose proof (published_loop _ Hloop) as Hnone.
      pose proof (dispatch_loop_published http _ Hloop) as Hbound.
      cbn [published requestedStations flat_map app] in *.
      rewrite !length_app. rewrite Hnone. cbn [length]. lia.
Qed.

End Cycle.

(** ** Restarts *)

(** X11: [plugin.stop] cancels no timer, so every start adds a timer that
    fires every 900000 ms to the ones already running: after [n] rounds of
    start and stop, [n] more such timers run. *)
Theorem restart_adds_interval (n : nat) (timers : list Timer) :
  filter isInterval (restart n timers)
  = (filter isInterval timers ++ repeat (setInterval 900000%float) n)%list.
Proof.
  revert timers. induction n as [| n IH]; intros timers; cbn [restart repeat].
  - now rewrite List.app_nil_r.
  - rewrite IH. unfold plugin_stop, plugin_start_on. rewrite filter_app.
    rewrite <- List.app_assoc. reflexivity.
Qed.

(** ** Replies without stations *)

Section NoStations.
Context {RT : Runtime}.
Local Open Scope js_scope.

(** X12: on a successful stations reply whose body has no [features], the
    callback throws a [TypeError] before any request; when [features] holds
    nothing to loop over, an empty array for one, the callback does nothing
    and completes normally. *)
Theorem stations_reply_without_features (lat lng error response data : JsVal) :
  requestSucceeded error response = Normal true ->
  (lacksFeatures data = true ->
   retrieveObservations_callback lat lng error response data = ([], Throw TypeError))
  /\ (forall features,
        getProp data "features" = Normal features ->
        loopItems features = Normal [] ->
        retrieveObservations_callback lat lng error response data = ([], Normal tt)).
Proof.
  intros Hok. unfold retrieveObservations_callback, lacksFeatures.
  rewrite Hok. cbn [lift bind]. split.
  - destruct (getProp data "features") as [features | e]; cbn [lift bind].
    + destruct features; try discriminate; reflexivity.
    + now destruct e.
  - intros features -> Hitems. cbn [lift bind]. rewrite Hitems. reflexivity.
Qed.

End NoStations.

(** ** A whole cycle *)

Section WholeCycle.
Context {RT : Runtime}.
Local Open Scope js_scope.




(** X14: the test [!error && response.statusCode == 200] reads the status
    only when [error] is falsy.  With a truthy error the request counts as
    failed whatever the response is, a missing one included; the test throws
    exactly when the error is falsy and the response is [undefined] or
    [null]. *)
Theorem requestSucceeded_short_circuit (error response : JsVal) :
  (truthy error = true -> requestSucceeded error response = Normal false)
  /\ (requestSucceeded error response = Throw TypeError
      <-> truthy error = false /\ isNullish response = true)
  /\ (requestSucceeded error response = Normal true
      <-> truthy error = false
          /\ exists statusCode,
               getProp response "statusCode" = Normal statusCode
               /\ looseEq statusCode (JNum 200%float) = true).
Proof.
  unfold requestSucceeded. destruct (truthy error); cbn [negb].
  - split; [reflexivity |]. split; split; try discriminate.
    + intros [H _]. discriminate.
    + intros [H _]. discriminate.
  - split; [discriminate |]. split; split.
    + destruct response; cbn; try discriminate; now split.
    + intros [_ H]. destruct response; try discriminate; reflexivity.
    + destruct (getProp response "statusCode") as [c |]; cbn [cbind]; [| discriminate].
      intros H. split; [reflexivity |]. exists c. split; [reflexivity |].
      now injection H.
    + intros [_ (c & -> & Hc)]. cbn [cbind]. now rewrite Hc.
Qed.

End WholeCycle.


(** ** The further properties on examples *)

Lemma NaN_distance_skips_station_witness :
  withinLimit (RT := sampleRuntime) (JNum 8%float) (JNum 0%float) antipodeStation = false
  /\ visitStation (RT := sampleRuntime) (JNum 8%float) (JNum 0%float) antipodeStation
     = ([], Normal tt).
Proof.
  apply (NaN_distance_skips_station (RT := sampleRuntime)
           (JNum 8%float) (JNum 0%float) antipodeStation nan); reflexivity.
Defined.

Lemma position_without_number_fetches_nothing_witness :
  retrieveObservations_callback (RT := sampleRuntime) JUndefined (JNum (-71.05)%float)
    JNull (JObj [("statusCode", JNum 200%float)])
    (JObj [("features", JArr [KBOS; KPVD])])
  = ([], Normal tt).
Proof.
  apply (position_without_number_fetches_nothing (RT := sampleRuntime)
           JUndefined (JNum (-71.05)%float)
           JNull (JObj [("statusCode", JNum 200%float)])
           (JObj [("features", JArr [KBOS; KPVD])]) [KBOS; KPVD]);
    try reflexivity.
  repeat constructor.
Defined.

Lemma clamp_gives_zero_witness :
  calculateDistance (RT := nearbyRuntime)
    (JNum 8%float) (JNum 0%float) (JNum 8%float) (JNum 1e-9%float)
  = 0%float.
Proof.
  apply (clamp_gives_zero (RT := nearbyRuntime)); reflexivity.
Defined.

Lemma stations_reply_without_features_witness :
  retrieveObservations_callback (RT := sampleRuntime)
    (JNum 42.35%float) (JNum (-71.05)%float)
    JNull (JObj [("statusCode", JNum 200%float)]) (JObj [("type", JStr "FeatureCollection")])
  = ([], Throw TypeError)
  /\ retrieveObservations_callback (RT := sampleRuntime)
       (JNum 42.35%float) (JNum (-71.05)%float)
       JNull (JObj [("statusCode", JNum 200%float)]) (JObj [("features", JArr [])])
     = ([], Normal tt).
Proof.
  split.
  - apply (stations_reply_without_features (RT := sampleRuntime)
             (JNum 42.35%float) (JNum (-71.05)%float)
             JNull (JObj [("statusCode", JNum 200%float)])
             (JObj [("type", JStr "FeatureCollection")])); reflexivity.
  - apply (proj2 (stations_reply_without_features (RT := sampleRuntime)
                    (JNum 42.35%float) (JNum (-71.05)%float)
                    JNull (JObj [("statusCode", JNum 200%float)])
                    (JObj [("features", JArr [])]) eq_refl) (JArr []));
      reflexivity.
Defined.
